(** * The zksolc compiler downloader of hardhat-zksync-solc

    A shallow embedding of
    [packages/hardhat-zksync-solc/src/compile/downloader.ts]
    (class [ZksolcCompilerDownloader]) and the properties of its version
    resolution, manifest cache, download sequence and binary
    verification.

    The class talks to the file system, the network, a subprocess, the
    clock and the console.  These are modelled by one [World] record that
    the methods thread through a small state/exception/trace monad; every
    call that leaves the class (file system, download capability,
    [spawnSync], [console.info]) is recorded in the trace of the run. *)

From Stdlib Require Import ZArith Ascii String List Lia Bool.
From stdpp Require Import base option gmap strings pretty.

Open Scope Z_scope.

(** ** Data model *)

(** [interface CompilerVersionInfo] (lines 22-25). *)
Record CompilerVersionInfo := {
  latest : string;
  minVersion : string
}.

(** The private fields of [ZksolcCompilerDownloader] (lines 68-82).
    [_mutex] only serialises concurrent callers and the model runs one
    caller at a time; [_downloadFunction] is always hardhat's [download],
    because the private constructor is called at line 38 only, with the
    defaults: it is the operation [download] on the world below. *)
Record ZksolcCompilerDownloader := {
  _version : string;
  _configCompilerPath : string;
  _compilersDirectory : string;
  _compilerVersionInfoCachePeriodMs : Z;
  _isCompilerPathURL : bool
}.

(** What a JavaScript [throw] carries here: the plugin's own error class,
    or any other exception (a JSON syntax error, a file-system error, the
    error of the download capability).  Both have a [message]. *)
Inductive exn :=
| ZkSyncSolcPluginError (message : string)
| Error (message : string).

Definition message_of (e : exn) : string :=
  match e with
  | ZkSyncSolcPluginError m => m
  | Error m => m
  end.

(** A file: the inode change time [stats.ctimeMs], the permission bits and
    the bytes.  Times are whole milliseconds. *)
Record File := {
  ctimeMs : Z;
  mode : Z;
  data : string
}.

(** What the remote end answers to a download. *)
Inductive response :=
| Fetched (body : string)
| Failed (message : string).

(** The part of [SpawnSyncReturns] that [verifyCompiler] reads; both
    fields are [null] when the process could not be started. *)
Record SpawnSyncReturns := {
  status : option Z;
  stdout : option string
}.

(** Which of the two private download methods called the capability. *)
Inductive artifact := VersionInfo | Compiler.

(** The calls that leave the class, in the order they are made. *)
Inductive event :=
| PathExists (path : string)
| Stat (path : string)
| ReadJSON (path : string)
| Download (what : artifact) (url path : string)
| Chmod (path : string) (mode : Z)
| SpawnSync (path : string) (args : list string)
| ConsoleInfo (text : string).

(** The process and its environment: the file system, the clock, the
    network, the operating system running a binary, and the two static
    members of the class (lines 66-67).  [now] is what the clock reads
    during one operation; an operation does not move it. *)
Record World := {
  fs : gmap string File;
  now : Z;
  net : string -> response;
  exec : option File -> list string -> SpawnSyncReturns;
  createMode : Z;
  _instance : option ZksolcCompilerDownloader;
  defaultCompilerVersionInfoCachePeriod : Z
}.

Definition with_fs (w : World) (m : gmap string File) : World :=
  {| fs := m; now := now w; net := net w; exec := exec w;
     createMode := createMode w; _instance := _instance w;
     defaultCompilerVersionInfoCachePeriod :=
       defaultCompilerVersionInfoCachePeriod w |}.

Definition with_instance (w : World) (i : option ZksolcCompilerDownloader)
  : World :=
  {| fs := fs w; now := now w; net := net w; exec := exec w;
     createMode := createMode w; _instance := i;
     defaultCompilerVersionInfoCachePeriod :=
       defaultCompilerVersionInfoCachePeriod w |}.

(** ** What the file imports

    [../utils], [../constants] and the Node libraries are not part of the
    file; the class is parametric in them. *)
Class Imports := {
  (* ../utils *)
  getZksolcUrl : string -> string -> string;
  isURL : string -> bool;
  isVersionInRange : string -> CompilerVersionInfo -> bool;
  saltFromUrl : string -> string;
  (* ../constants *)
  COMPILER_BINARY_CORRUPTION_ERROR : string;
  COMPILER_VERSION_INFO_FILE_DOWNLOAD_ERROR : string;
  COMPILER_VERSION_INFO_FILE_NOT_FOUND_ERROR : string;
  COMPILER_VERSION_RANGE_ERROR : string -> string -> string -> string;
  COMPILER_VERSION_WARNING : string -> string -> string;
  ZKSOLC_BIN_REPOSITORY : string;
  ZKSOLC_BIN_VERSION_INFO : string;
  (* path, fs-extra, chalk *)
  path_join : list string -> string;
  parseJSON : string -> option CompilerVersionInfo;
  chalk_yellow : string -> string
}.

(** ** The monad of the methods *)

Inductive result (A : Type) :=
| Ok (a : A)
| Throw (e : exn).
Arguments Ok {A} a.
Arguments Throw {A} e.

Record Outcome (A : Type) := {
  res : result A;
  final : World;
  trace : list event
}.
Arguments res {A} _.
Arguments final {A} _.
Arguments trace {A} _.
Arguments Build_Outcome {A} _ _ _.

Definition M (A : Type) : Type := World -> Outcome A.

Definition ret {A} (a : A) : M A :=
  fun w => {| res := Ok a; final := w; trace := [] |}.

Definition throw {A} (e : exn) : M A :=
  fun w => {| res := Throw e; final := w; trace := [] |}.

Definition bind {A B} (c : M A) (k : A -> M B) : M B :=
  fun w =>
    let o := c w in
    match res o with
    | Ok a =>
        let o' := k a (final o) in
        {| res := res o'; final := final o'; trace := trace o ++ trace o' |}
    | Throw e => {| res := Throw e; final := final o; trace := trace o |}
    end.

(** [try { c } catch (e) { h e }] *)
Definition try_catch {A} (c : M A) (h : exn -> M A) : M A :=
  fun w =>
    let o := c w in
    match res o with
    | Ok a => o
    | Throw e =>
        let o' := h e (final o) in
        {| res := res o'; final := final o'; trace := trace o ++ trace o' |}
    end.

Definition emit (e : event) : M unit :=
  fun w => {| res := Ok tt; final := w; trace := [e] |}.

Definition gets {A} (f : World -> A) : M A :=
  fun w => {| res := Ok (f w); final := w; trace := [] |}.

Definition modify (f : World -> World) : M unit :=
  fun w => {| res := Ok tt; final := f w; trace := [] |}.

Notation "'let*' x ':=' c 'in' k" := (bind c (fun x => k))
  (at level 10, x name, c at level 100, k at level 200).
Notation "c ';;;' k" := (bind c (fun _ => k))
  (at level 100, k at level 200, right associativity).

(** ** The environment's operations *)

(** The operations of Node, fs-extra and hardhat that the class calls.
    The messages of the exceptions they throw are placeholders: the class
    reads the message of the download capability's error only. *)

(** [fsExtra.pathExists] *)
Definition pathExists (p : string) : M bool :=
  emit (PathExists p) ;;;
  let* files := gets fs in
  ret (bool_decide (is_Some (files !! p))).

(** [fsExtra.stat]: rejects when the path does not exist. *)
Definition stat (p : string) : M File :=
  emit (Stat p) ;;;
  let* files := gets fs in
  match files !! p with
  | Some f => ret f
  | None => throw (Error "ENOENT")
  end.

(** [fsExtra.readJSON]: rejects when the file is missing or its text is
    not JSON.  A text that parses is taken to have the shape of
    [CompilerVersionInfo], as the signature at line 166 says. *)
Definition readJSON `{Imports} (p : string) : M CompilerVersionInfo :=
  emit (ReadJSON p) ;;;
  let* files := gets fs in
  match files !! p with
  | Some f =>
      match parseJSON (data f) with
      | Some v => ret v
      | None => throw (Error "SyntaxError")
      end
  | None => throw (Error "ENOENT")
  end.

(** [fsExtra.chmodSync]: throws when the path does not exist; changing
    the permission bits is a change of the inode, which sets its ctime. *)
Definition chmodSync (p : string) (m : Z) : M unit :=
  emit (Chmod p m) ;;;
  let* files := gets fs in
  match files !! p with
  | Some f =>
      let* t := gets now in
      modify (fun w =>
        with_fs w (<[p := {| ctimeMs := t; mode := m; data := data f |}]> (fs w)))
  | None => throw (Error "ENOENT")
  end.

(** hardhat's [download(url, filePath)]: on success the file at
    [filePath] holds the fetched bytes; on failure nothing is written and
    the transport's error is thrown. *)
Definition download (what : artifact) (url p : string) : M unit :=
  emit (Download what url p) ;;;
  let* answer := gets net in
  match answer url with
  | Fetched body =>
      let* t := gets now in
      let* m := gets createMode in
      modify (fun w =>
        with_fs w (<[p := {| ctimeMs := t; mode := m; data := body |}]> (fs w)))
  | Failed msg => throw (Error msg)
  end.

(** [spawnSync(path, args)]: the operating system runs what is at the
    path; the run itself leaves the file system as it is. *)
Definition spawnSync (p : string) (args : list string) : M SpawnSyncReturns :=
  emit (SpawnSync p args) ;;;
  let* files := gets fs in
  let* os := gets exec in
  ret (os (files !! p) args).

(** [console.info] *)
Definition console_info (text : string) : M unit :=
  emit (ConsoleInfo text).

(** ** String operations of the JavaScript runtime *)

(** [s.split(sep)] for a one-character separator: the pieces between the
    separators, at least one piece. *)
Fixpoint split (sep : ascii) (s : string) : list string :=
  match s with
  | EmptyString => [EmptyString]
  | String c s' =>
      if Ascii.eqb c sep then EmptyString :: split sep s'
      else match split sep s' with
           | piece :: pieces => String c piece :: pieces
           | [] => [String c EmptyString]
           end
  end.

Definition newline : ascii := ascii_of_nat 10.

(** [\d] of a regular expression without the unicode flag: 0 to 9. *)
Definition isDigit (c : ascii) : bool :=
  let n := nat_of_ascii c in
  (Nat.leb 48 n && Nat.leb n 57)%bool.

Definition dot : ascii := ascii_of_nat 46.

(** The longest prefix of digits, and what follows it: what a greedy
    [\d+] consumes. *)
Fixpoint spanDigits (s : string) : string * string :=
  match s with
  | String c s' =>
      if isDigit c then
        let (ds, rest) := spanDigits s' in (String c ds, rest)
      else (EmptyString, s)
  | EmptyString => (EmptyString, EmptyString)
  end.

(** A match of [/\d+\.\d+\.\d+/] that starts at the first character.
    Giving back digits never helps the next [\.] to match, so the greedy
    choice is the only one the engine can succeed with. *)
Definition matchAtStart (s : string) : option string :=
  let (d1, r1) := spanDigits s in
  match d1, r1 with
  | String _ _, String c1 r1' =>
      if Ascii.eqb c1 dot then
        let (d2, r2) := spanDigits r1' in
        match d2, r2 with
        | String _ _, String c2 r2' =>
            if Ascii.eqb c2 dot then
              let (d3, _) := spanDigits r2' in
              match d3 with
              | String _ _ =>
                  Some (d1 +:+ String dot (d2 +:+ String dot d3))
              | EmptyString => None
              end
            else None
        | _, _ => None
        end
      else None
  | _, _ => None
  end.

(** [s.match(/\d+\.\d+\.\d+/)?.toString()]: the engine tries the start
    positions from left to right; the result array of a pattern without
    groups holds the matched text only. *)
Fixpoint regexMatch (s : string) : option string :=
  match matchAtStart s with
  | Some m => Some m
  | None =>
      match s with
      | String _ s' => regexMatch s'
      | EmptyString => None
      end
  end.

(** ** The class [ZksolcCompilerDownloader] *)

Section Downloader.
Context `{Imports}.

(** The private constructor (lines 74-82), with the defaults of its last
    two parameters: the cache period is the static member's value at the
    time of construction. *)
Definition new_ZksolcCompilerDownloader
    (version configCompilerPath compilersDirectory : string)
    (cachePeriodMs : Z) : ZksolcCompilerDownloader :=
  {| _version := version;
     _configCompilerPath := configCompilerPath;
     _compilersDirectory := compilersDirectory;
     _compilerVersionInfoCachePeriodMs := cachePeriodMs;
     _isCompilerPathURL := isURL configCompilerPath |}.

(** The assignment [_instance._version = v] of line 55. *)
Definition set_version (this : ZksolcCompilerDownloader) (v : string)
  : ZksolcCompilerDownloader :=
  {| _version := v;
     _configCompilerPath := _configCompilerPath this;
     _compilersDirectory := _compilersDirectory this;
     _compilerVersionInfoCachePeriodMs := _compilerVersionInfoCachePeriodMs this;
     _isCompilerPathURL := _isCompilerPathURL this |}.

(** [getCompilerPath] (lines 84-93). *)
Definition getCompilerPath (this : ZksolcCompilerDownloader) : string :=
  let salt :=
    if _isCompilerPathURL this then saltFromUrl (_configCompilerPath this)
    else "" in
  path_join [_compilersDirectory this; "zksolc";
             "zksolc-v" +:+ _version this
               +:+ (if String.eqb salt "" then "" else "-") +:+ salt].

(** [isCompilerDownloaded] (lines 95-98). *)
Definition isCompilerDownloaded (this : ZksolcCompilerDownloader) : M bool :=
  let compilerPath := getCompilerPath this in
  pathExists compilerPath.

(** [_getCompilerVersionInfoPath] (lines 112-114). *)
Definition _getCompilerVersionInfoPath (this : ZksolcCompilerDownloader)
  : string :=
  path_join [_compilersDirectory this; "zksolc"; "compilerVersionInfo.json"].

(** [_shouldDownloadCompilerVersionInfo] (lines 100-110). *)
Definition _shouldDownloadCompilerVersionInfo
    (this : ZksolcCompilerDownloader) : M bool :=
  let compilerVersionInfoPath := _getCompilerVersionInfoPath this in
  let* present := pathExists compilerVersionInfoPath in
  if negb present then ret true
  else
    let* stats := stat compilerVersionInfoPath in
    let* date := gets now in
    let age := date - ctimeMs stats in
    ret (age >? _compilerVersionInfoCachePeriodMs this).

(** [_downloadCompilerVersionInfo] (lines 148-153). *)
Definition _downloadCompilerVersionInfo (this : ZksolcCompilerDownloader)
  : M unit :=
  let url := ZKSOLC_BIN_VERSION_INFO +:+ "/version.json" in
  let downloadPath := _getCompilerVersionInfoPath this in
  download VersionInfo url downloadPath.

(** [_downloadCompiler] (lines 155-164). *)
Definition _downloadCompiler (this : ZksolcCompilerDownloader) : M string :=
  let url :=
    if negb (_isCompilerPathURL this)
    then getZksolcUrl ZKSOLC_BIN_REPOSITORY (_version this)
    else _configCompilerPath this in
  let downloadPath := getCompilerPath this in
  download Compiler url downloadPath ;;;
  ret downloadPath.

(** [_readCompilerVersionInfo] (lines 166-168). *)
Definition _readCompilerVersionInfo (compilerVersionInfoPath : string)
  : M CompilerVersionInfo :=
  readJSON compilerVersionInfoPath.

(** [_getCompilerVersionInfo] (lines 170-177); [None] is [undefined]. *)
Definition _getCompilerVersionInfo (this : ZksolcCompilerDownloader)
  : M (option CompilerVersionInfo) :=
  let compilerVersionInfoPath := _getCompilerVersionInfoPath this in
  let* present := pathExists compilerVersionInfoPath in
  if negb present then ret None
  else
    let* info := _readCompilerVersionInfo compilerVersionInfoPath in
    ret (Some info).

(** [_postProcessCompilerDownload] (lines 179-182); [0o755] is 493. *)
Definition _postProcessCompilerDownload (this : ZksolcCompilerDownloader)
  : M unit :=
  let compilerPath := getCompilerPath this in
  chmodSync compilerPath 493.

(** [verifyCompiler] (lines 184-200).  [version] is [None] for the
    [null] or [undefined] of lines 188-191; the test of line 193 lets
    through exactly a status 0 with a version found. *)
Definition verifyCompiler (this : ZksolcCompilerDownloader) : M unit :=
  let compilerPath := getCompilerPath this in
  let* versionOutput := spawnSync compilerPath ["--version"] in
  let version :=
    match stdout versionOutput with
    | Some out => regexMatch out
    | None => None
    end in
  match status versionOutput, version with
  | Some 0, Some version =>
      if negb (String.eqb (_version this) version) then
        console_info (chalk_yellow
          ("zksolc compiler version mismatch: expected " +:+ _version this
             +:+ ", got " +:+ version))
      else ret tt
  | _, _ => throw (ZkSyncSolcPluginError COMPILER_BINARY_CORRUPTION_ERROR)
  end.

(** [downloadCompiler] (lines 116-146).  The condition of line 120 is a
    conjunction: the staleness test runs only when no manifest was read. *)
Definition downloadCompiler (this : ZksolcCompilerDownloader) : M unit :=
  let* compilerVersionInfo := _getCompilerVersionInfo this in
  let* refetch :=
    match compilerVersionInfo with
    | None => _shouldDownloadCompilerVersionInfo this
    | Some _ => ret false
    end in
  let* compilerVersionInfo :=
    if refetch then
      try_catch (_downloadCompilerVersionInfo this)
        (fun e => throw (ZkSyncSolcPluginError
                           COMPILER_VERSION_INFO_FILE_DOWNLOAD_ERROR)) ;;;
      _getCompilerVersionInfo this
    else ret compilerVersionInfo in
  match compilerVersionInfo with
  | None =>
      throw (ZkSyncSolcPluginError COMPILER_VERSION_INFO_FILE_NOT_FOUND_ERROR)
  | Some compilerVersionInfo =>
      if negb (isVersionInRange (_version this) compilerVersionInfo) then
        throw (ZkSyncSolcPluginError
                 (COMPILER_VERSION_RANGE_ERROR (_version this)
                    (minVersion compilerVersionInfo)
                    (latest compilerVersionInfo)))
      else
        try_catch (_downloadCompiler this ;;; ret tt)
          (fun e => throw (ZkSyncSolcPluginError
                             (hd "" (split newline (message_of e))))) ;;;
        _postProcessCompilerDownload this ;;;
        verifyCompiler this
  end.

(** [getDownloaderWithVersionValidated] (lines 32-64).  The static
    [_instance] is assigned at line 38, before anything is validated, and
    line 55 writes through it; line 63 returns what the static holds.
    The condition of line 41 is a disjunction: the staleness test runs
    when a manifest was read.  The static is never cleared, so the read
    at line 63 finds a session: the [None] arm there is never taken
    ([instance_set_after_call]). *)
Definition getDownloaderWithVersionValidated
    (version configCompilerPath compilersDir : string)
  : M ZksolcCompilerDownloader :=
  let* instance := gets _instance in
  match instance with
  | Some this => ret this
  | None =>
      let* period := gets defaultCompilerVersionInfoCachePeriod in
      let this :=
        new_ZksolcCompilerDownloader version configCompilerPath compilersDir
          period in
      modify (fun w => with_instance w (Some this)) ;;;
      let* compilerVersionInfo := _getCompilerVersionInfo this in
      let* refetch :=
        match compilerVersionInfo with
        | None => ret true
        | Some _ => _shouldDownloadCompilerVersionInfo this
        end in
      let* compilerVersionInfo :=
        if refetch then
          try_catch (_downloadCompilerVersionInfo this)
            (fun e => throw (ZkSyncSolcPluginError
                               COMPILER_VERSION_INFO_FILE_DOWNLOAD_ERROR)) ;;;
          _getCompilerVersionInfo this
        else ret compilerVersionInfo in
      match compilerVersionInfo with
      | None =>
          throw (ZkSyncSolcPluginError
                   COMPILER_VERSION_INFO_FILE_NOT_FOUND_ERROR)
      | Some compilerVersionInfo =>
          (if (String.eqb version "latest"
               || String.eqb version (latest compilerVersionInfo))%bool
           then
             modify (fun w =>
               with_instance w
                 (flip set_version (latest compilerVersionInfo)
                    <$> _instance w))
           else if negb (isVersionInRange version compilerVersionInfo) then
             throw (ZkSyncSolcPluginError
                      (COMPILER_VERSION_RANGE_ERROR version
                         (minVersion compilerVersionInfo)
                         (latest compilerVersionInfo)))
           else
             console_info (chalk_yellow
               (COMPILER_VERSION_WARNING version
                  (latest compilerVersionInfo)))) ;;;
          let* instance := gets _instance in
          match instance with
          | Some this => ret this
          | None => throw (Error "unreachable")
          end
      end
  end.

End Downloader.

(** ** A concrete environment

    Used for the examples below: the imports are given values, and a
    world is built from a list of files and a list of remote documents. *)

Module Sample.

(** A decimal number: digits only, at least one. *)
Fixpoint digitsValue (s : string) (acc : N) : option N :=
  match s with
  | EmptyString => Some acc
  | String c s' =>
      if isDigit c
      then digitsValue s' (10 * acc + (N_of_ascii c - 48))%N
      else None
  end.

Definition parseNumber (s : string) : option N :=
  match s with
  | EmptyString => None
  | String _ _ => digitsValue s 0%N
  end.

(** A version of three numeric components, [major.minor.patch]. *)
Definition parseSemVer (s : string) : option (N * N * N) :=
  match split dot s with
  | [a; b; c] =>
      match parseNumber a, parseNumber b, parseNumber c with
      | Some x, Some y, Some z => Some (x, y, z)
      | _, _, _ => None
      end
  | _ => None
  end.

(** The order of semantic versions on such triples: by major, then minor,
    then patch. *)
Definition semverLeb (a b : N * N * N) : bool :=
  let '(a1, a2, a3) := a in
  let '(b1, b2, b3) := b in
  ((a1 <? b1)
   || ((a1 =? b1) && ((a2 <? b2) || ((a2 =? b2) && (a3 <=? b3)))))%N%bool.

(** Modelled from the spec: the helper [isVersionInRange] of [../utils],
    which the sources do not include.  Section 4.3, step 3: parse the
    requested version as a semantic version and check
    [minVersion <= requested <= latest], both ends included.  The model
    covers versions of three numeric components; the spec does not say
    what a string that does not parse does, and here it is not in range. *)
Definition isVersionInRange (version : string) (info : CompilerVersionInfo)
  : bool :=
  match parseSemVer version, parseSemVer (minVersion info),
        parseSemVer (latest info) with
  | Some v, Some lo, Some hi => (semverLeb lo v && semverLeb v hi)%bool
  | _, _, _ => false
  end.

Definition quote : ascii := ascii_of_nat 34.

Fixpoint stripPrefix (p s : string) : option string :=
  match p, s with
  | EmptyString, _ => Some s
  | String a p', String b s' =>
      if Ascii.eqb a b then stripPrefix p' s' else None
  | String _ _, EmptyString => None
  end.

(** The text up to the next double quote, and what follows the quote. *)
Fixpoint untilQuote (s : string) : option (string * string) :=
  match s with
  | EmptyString => None
  | String c s' =>
      if Ascii.eqb c quote then Some (EmptyString, s')
      else match untilQuote s' with
           | Some (text, rest) => Some (String c text, rest)
           | None => None
           end
  end.

Definition key (name : string) : string :=
  String quote (name +:+ String quote (String ":" (String quote EmptyString))).

(** The manifest as a JSON document, in the schema of section 6. *)
Definition manifestJSON (info : CompilerVersionInfo) : string :=
  "{" +:+ key "latest" +:+ latest info +:+ String quote ","
      +:+ key "minVersion" +:+ minVersion info +:+ String quote "}".

(** A reader of the documents of that schema, standing for [JSON.parse]
    on them; any other text is taken not to parse. *)
Definition parseJSON (text : string) : option CompilerVersionInfo :=
  r1 ← stripPrefix ("{" +:+ key "latest") text;
  '(l, r2) ← untilQuote r1;
  r3 ← stripPrefix ("," +:+ key "minVersion") r2;
  '(m, r4) ← untilQuote r3;
  if String.eqb r4 "}" then Some {| latest := l; minVersion := m |} else None.

Fixpoint joinWith (sep : string) (parts : list string) : string :=
  match parts with
  | [] => EmptyString
  | [p] => p
  | p :: ps => p +:+ sep +:+ joinWith sep ps
  end.

(** A checksum of the URL in decimal, standing for [saltFromUrl]. *)
Fixpoint checksum (u : string) (acc : N) : N :=
  match u with
  | EmptyString => acc
  | String c u' => checksum u' ((31 * acc + N_of_ascii c) mod 4294967296)%N
  end.

#[export] Instance imports : Imports :=
  Build_Imports
    (* getZksolcUrl *)
    (fun repo version => repo +:+ "/zksolc-linux-amd64-musl-v" +:+ version)
    (* isURL *)
    (fun u => (bool_decide (is_Some (stripPrefix "http://" u))
               || bool_decide (is_Some (stripPrefix "https://" u)))%bool)
    isVersionInRange
    (* saltFromUrl *)
    (fun u => pretty (checksum u 0%N))
    (* COMPILER_BINARY_CORRUPTION_ERROR *)
    "The zksolc binary is corrupted."
    (* COMPILER_VERSION_INFO_FILE_DOWNLOAD_ERROR *)
    "Could not download the compiler version information file."
    (* COMPILER_VERSION_INFO_FILE_NOT_FOUND_ERROR *)
    "Could not find the compiler version information file."
    (* COMPILER_VERSION_RANGE_ERROR *)
    (fun version lo hi =>
       "The zksolc version " +:+ version +:+ " is not within " +:+ lo
         +:+ " to " +:+ hi +:+ ".")
    (* COMPILER_VERSION_WARNING *)
    (fun version hi =>
       "The zksolc version " +:+ version +:+ " is not the latest, " +:+ hi
         +:+ ".")
    (* ZKSOLC_BIN_REPOSITORY, ZKSOLC_BIN_VERSION_INFO *)
    "https://example.org/zksolc-bin"
    "https://example.org/zksolc-bin"
    (* path.join, JSON.parse, chalk.yellow *)
    (joinWith "/")
    parseJSON
    (fun text => text).

(** The operating system of the examples: a file that starts with
    [#!print ] prints the rest of its bytes and exits with 0, any other
    file exits with 1, and a missing file cannot be started. *)
Definition os (f : option File) (args : list string) : SpawnSyncReturns :=
  match f with
  | None => {| status := None; stdout := None |}
  | Some f =>
      match stripPrefix "#!print " (data f) with
      | Some text => {| status := Some 0; stdout := Some text |}
      | None => {| status := Some 1; stdout := Some EmptyString |}
      end
  end.

Definition notFound : string := "HTTP 404" +:+ String newline "Not Found".

(** A process that has not built its session yet, one day of cache
    period, the given files on disk and documents on the network. *)
Definition world (files : list (string * File))
    (remote : list (string * string)) (time : Z) : World :=
  {| fs := list_to_map files;
     now := time;
     net := fun url =>
       match (list_to_map remote : gmap string string) !! url with
       | Some body => Fetched body
       | None => Failed notFound
       end;
     exec := os;
     createMode := 420;
     _instance := None;
     defaultCompilerVersionInfoCachePeriod := 86400000 |}.

Definition manifestPath : string := "/cache/zksolc/compilerVersionInfo.json".
Definition manifestUrl : string := "https://example.org/zksolc-bin/version.json".

Definition manifest (hi lo : string) : CompilerVersionInfo :=
  {| latest := hi; minVersion := lo |}.

Definition manifestFile (hi lo : string) (time : Z) : File :=
  {| ctimeMs := time; mode := 420; data := manifestJSON (manifest hi lo) |}.

(** The session that line 38 builds for a version, with the default
    repository and the directory [/cache]. *)
Definition session (version : string) : ZksolcCompilerDownloader :=
  new_ZksolcCompilerDownloader version "" "/cache" 86400000.

Definition binaryUrl (version : string) : string :=
  "https://example.org/zksolc-bin/zksolc-linux-amd64-musl-v" +:+ version.

Definition binaryPath (version : string) : string :=
  "/cache/zksolc/zksolc-v" +:+ version.

Definition zksolc (version : string) : string :=
  "#!print zksolc version " +:+ version.

(** The manifest of section 8's example, cached a second ago; nothing on
    the network. *)
Definition freshCache : World :=
  world [(manifestPath, manifestFile "1.3.13" "1.3.0" 1000)] [] 2000.

(** The same cache file more than a day later, with a newer manifest
    published. *)
Definition staleCache : World :=
  world [(manifestPath, manifestFile "1.3.13" "1.3.0" 1000)]
    [(manifestUrl, manifestJSON (manifest "1.3.14" "1.3.0"));
     (binaryUrl "1.3.5", zksolc "1.3.5")] 100000000.

(** A stale cache file that is not JSON. *)
Definition brokenCache : World :=
  world [(manifestPath, {| ctimeMs := 1000; mode := 420; data := "<html>" |})]
    [(manifestUrl, manifestJSON (manifest "1.3.14" "1.3.0"))] 100000000.

(** A cached manifest whose window is inconsistent: [minVersion] above
    [latest]. *)
Definition inconsistentWindow : World :=
  world [(manifestPath, manifestFile "1.3.13" "1.4.0" 1000)]
    [(binaryUrl "1.3.13", zksolc "1.3.13")] 2000.

(** The binary of 1.3.5 already in place and working, and published. *)
Definition alreadyDownloaded : World :=
  world [(manifestPath, manifestFile "1.3.13" "1.3.0" 1000);
         (binaryPath "1.3.5",
          {| ctimeMs := 1500; mode := 493; data := zksolc "1.3.5" |})]
    [(binaryUrl "1.3.5", zksolc "1.3.5")] 2000.

(** The binary at the path of 1.3.0 reports 1.3.13. *)
Definition mislabelled : World :=
  world [(binaryPath "1.3.0",
          {| ctimeMs := 1500; mode := 493; data := zksolc "1.3.13" |})]
    [] 2000.

(** What is published as 1.3.5 is not a program. *)
Definition corruptRelease : World :=
  world [(manifestPath, manifestFile "1.3.13" "1.3.0" 1000)]
    [(binaryUrl "1.3.5", "<html>")] 2000.

End Sample.

(** ** Running the methods: equations of the monad *)

Section Run.
Context {A B : Type}.

Lemma bind_ok (c : M A) (k : A -> M B) w a w1 t1 :
  c w = {| res := Ok a; final := w1; trace := t1 |} ->
  bind c k w =
    {| res := res (k a w1); final := final (k a w1);
       trace := t1 ++ trace (k a w1) |}.
Proof. intros Hc. unfold bind. rewrite Hc. reflexivity. Qed.

Lemma bind_throw (c : M A) (k : A -> M B) w e w1 t1 :
  c w = {| res := Throw e; final := w1; trace := t1 |} ->
  bind c k w = {| res := Throw e; final := w1; trace := t1 |}.
Proof. intros Hc. unfold bind. rewrite Hc. reflexivity. Qed.

Lemma try_catch_ok (c : M A) (h : exn -> M A) w a w1 t1 :
  c w = {| res := Ok a; final := w1; trace := t1 |} ->
  try_catch c h w = {| res := Ok a; final := w1; trace := t1 |}.
Proof. intros Hc. unfold try_catch. rewrite Hc. reflexivity. Qed.

Lemma try_catch_throw (c : M A) (h : exn -> M A) w e w1 t1 :
  c w = {| res := Throw e; final := w1; trace := t1 |} ->
  try_catch c h w =
    {| res := res (h e w1); final := final (h e w1);
       trace := t1 ++ trace (h e w1) |}.
Proof. intros Hc. unfold try_catch. rewrite Hc. reflexivity. Qed.

End Run.

(** A property of the world that a computation keeps. *)
Definition Keeps {A} (P : World -> Prop) (c : M A) : Prop :=
  forall w, P w -> P (final (c w)).

Section Keeps.
Context (P : World -> Prop).

Lemma keeps_ret {A} (a : A) : Keeps P (ret a).
Proof. intros w Hw; exact Hw. Qed.

Lemma keeps_throw {A} e : Keeps P (@throw A e).
Proof. intros w Hw; exact Hw. Qed.

Lemma keeps_emit e : Keeps P (emit e).
Proof. intros w Hw; exact Hw. Qed.

Lemma keeps_gets {A} (f : World -> A) : Keeps P (gets f).
Proof. intros w Hw; exact Hw. Qed.

Lemma keeps_modify f : (forall w, P w -> P (f w)) -> Keeps P (modify f).
Proof. intros Hf w Hw. apply Hf, Hw. Qed.

Lemma keeps_bind {A B} (c : M A) (k : A -> M B) :
  Keeps P c -> (forall a, Keeps P (k a)) -> Keeps P (bind c k).
Proof.
  intros Hc Hk w Hw. unfold bind.
  specialize (Hc w Hw). destruct (res (c w)) as [a|e]; cbn.
  - apply Hk, Hc.
  - exact Hc.
Qed.

End Keeps.

(** ** Outcomes of the private methods *)

Section Methods.
Context `{Imports}.
Implicit Types (this : ZksolcCompilerDownloader) (w : World).

Lemma pathExists_run p w :
  pathExists p w =
    {| res := Ok (bool_decide (is_Some (fs w !! p))); final := w;
       trace := [PathExists p] |}.
Proof. reflexivity. Qed.

Lemma _getCompilerVersionInfo_absent this w :
  fs w !! _getCompilerVersionInfoPath this = None ->
  _getCompilerVersionInfo this w =
    {| res := Ok None; final := w;
       trace := [PathExists (_getCompilerVersionInfoPath this)] |}.
Proof.
  intros Hfs. unfold _getCompilerVersionInfo.
  rewrite (bind_ok _ _ _ _ _ _ (pathExists_run _ w)).
  rewrite Hfs. reflexivity.
Qed.

Lemma _getCompilerVersionInfo_present this w f info :
  fs w !! _getCompilerVersionInfoPath this = Some f ->
  parseJSON (data f) = Some info ->
  _getCompilerVersionInfo this w =
    {| res := Ok (Some info); final := w;
       trace := [PathExists (_getCompilerVersionInfoPath this);
                 ReadJSON (_getCompilerVersionInfoPath this)] |}.
Proof.
  intros Hfs Hparse. unfold _getCompilerVersionInfo.
  rewrite (bind_ok _ _ _ _ _ _ (pathExists_run _ w)).
  rewrite Hfs. cbn.
  unfold _readCompilerVersionInfo, readJSON, bind, emit, gets, ret; cbn.
  rewrite Hfs, Hparse. reflexivity.
Qed.

Lemma _getCompilerVersionInfo_malformed this w f :
  fs w !! _getCompilerVersionInfoPath this = Some f ->
  parseJSON (data f) = None ->
  _getCompilerVersionInfo this w =
    {| res := Throw (Error "SyntaxError"); final := w;
       trace := [PathExists (_getCompilerVersionInfoPath this);
                 ReadJSON (_getCompilerVersionInfoPath this)] |}.
Proof.
  intros Hfs Hparse. unfold _getCompilerVersionInfo.
  rewrite (bind_ok _ _ _ _ _ _ (pathExists_run _ w)).
  rewrite Hfs. cbn.
  unfold _readCompilerVersionInfo, readJSON, bind, emit, gets, ret; cbn.
  rewrite Hfs, Hparse. reflexivity.
Qed.

Lemma _shouldDownloadCompilerVersionInfo_absent this w :
  fs w !! _getCompilerVersionInfoPath this = None ->
  _shouldDownloadCompilerVersionInfo this w =
    {| res := Ok true; final := w;
       trace := [PathExists (_getCompilerVersionInfoPath this)] |}.
Proof.
  intros Hfs. unfold _shouldDownloadCompilerVersionInfo.
  rewrite (bind_ok _ _ _ _ _ _ (pathExists_run _ w)).
  rewrite Hfs. reflexivity.
Qed.

Lemma _shouldDownloadCompilerVersionInfo_present this w f :
  fs w !! _getCompilerVersionInfoPath this = Some f ->
  _shouldDownloadCompilerVersionInfo this w =
    {| res := Ok (now w - ctimeMs f >? _compilerVersionInfoCachePeriodMs this);
       final := w;
       trace := [PathExists (_getCompilerVersionInfoPath this);
                 Stat (_getCompilerVersionInfoPath this)] |}.
Proof.
  intros Hfs. unfold _shouldDownloadCompilerVersionInfo.
  rewrite (bind_ok _ _ _ _ _ _ (pathExists_run _ w)).
  rewrite Hfs. cbn.
  unfold stat, bind, emit, gets, ret; cbn.
  rewrite Hfs. reflexivity.
Qed.

Definition versionInfoUrl : string := ZKSOLC_BIN_VERSION_INFO +:+ "/version.json".

Definition written (w : World) (p body : string) : World :=
  with_fs w (<[p := {| ctimeMs := now w; mode := createMode w; data := body |}]> (fs w)).

Lemma written_lookup w p body :
  fs (written w p body) !! p =
    Some {| ctimeMs := now w; mode := createMode w; data := body |}.
Proof. unfold written; cbn. apply lookup_insert_eq. Qed.

Lemma download_fetched what url p w body :
  net w url = Fetched body ->
  download what url p w =
    {| res := Ok tt; final := written w p body;
       trace := [Download what url p] |}.
Proof.
  intros Hnet. unfold download, bind, emit, gets, modify; cbn.
  rewrite Hnet. reflexivity.
Qed.

Lemma download_failed what url p w msg :
  net w url = Failed msg ->
  download what url p w =
    {| res := Throw (Error msg); final := w;
       trace := [Download what url p] |}.
Proof.
  intros Hnet. unfold download, bind, emit, gets, modify; cbn.
  rewrite Hnet. reflexivity.
Qed.

Lemma refetch_parsed this w h body info :
  net w versionInfoUrl = Fetched body ->
  parseJSON body = Some info ->
  (try_catch (_downloadCompilerVersionInfo this) h ;;;
   _getCompilerVersionInfo this) w =
    {| res := Ok (Some info);
       final := written w (_getCompilerVersionInfoPath this) body;
       trace := [Download VersionInfo versionInfoUrl
                   (_getCompilerVersionInfoPath this);
                 PathExists (_getCompilerVersionInfoPath this);
                 ReadJSON (_getCompilerVersionInfoPath this)] |}.
Proof.
  intros Hnet Hbody.
  assert (Hd : _downloadCompilerVersionInfo this w =
            {| res := Ok tt;
               final := written w (_getCompilerVersionInfoPath this) body;
               trace := [Download VersionInfo versionInfoUrl
                           (_getCompilerVersionInfoPath this)] |})
    by (apply download_fetched; exact Hnet).
  rewrite (bind_ok _ _ _ _ _ _ (try_catch_ok _ h _ _ _ _ Hd)).
  rewrite (_getCompilerVersionInfo_present this _ _ info
             (written_lookup _ _ _) Hbody).
  reflexivity.
Qed.

Lemma refetch_malformed this w h body :
  net w versionInfoUrl = Fetched body ->
  parseJSON body = None ->
  (try_catch (_downloadCompilerVersionInfo this) h ;;;
   _getCompilerVersionInfo this) w =
    {| res := Throw (Error "SyntaxError");
       final := written w (_getCompilerVersionInfoPath this) body;
       trace := [Download VersionInfo versionInfoUrl
                   (_getCompilerVersionInfoPath this);
                 PathExists (_getCompilerVersionInfoPath this);
                 ReadJSON (_getCompilerVersionInfoPath this)] |}.
Proof.
  intros Hnet Hbody.
  assert (Hd : _downloadCompilerVersionInfo this w =
            {| res := Ok tt;
               final := written w (_getCompilerVersionInfoPath this) body;
               trace := [Download VersionInfo versionInfoUrl
                           (_getCompilerVersionInfoPath this)] |})
    by (apply download_fetched; exact Hnet).
  rewrite (bind_ok _ _ _ _ _ _ (try_catch_ok _ h _ _ _ _ Hd)).
  rewrite (_getCompilerVersionInfo_malformed this _ _
             (written_lookup _ _ _) Hbody).
  reflexivity.
Qed.

Lemma refetch_failed this w msg :
  net w versionInfoUrl = Failed msg ->
  (try_catch (_downloadCompilerVersionInfo this)
     (fun e => throw (ZkSyncSolcPluginError
                        COMPILER_VERSION_INFO_FILE_DOWNLOAD_ERROR)) ;;;
   _getCompilerVersionInfo this) w =
    {| res := Throw (ZkSyncSolcPluginError
                       COMPILER_VERSION_INFO_FILE_DOWNLOAD_ERROR);
       final := w;
       trace := [Download VersionInfo versionInfoUrl
                   (_getCompilerVersionInfoPath this)] |}.
Proof.
  intros Hnet.
  assert (Hd : _downloadCompilerVersionInfo this w =
            {| res := Throw (Error msg); final := w;
               trace := [Download VersionInfo versionInfoUrl
                           (_getCompilerVersionInfoPath this)] |})
    by (apply download_failed; exact Hnet).
  apply bind_throw.
  rewrite (try_catch_throw _ _ _ _ _ _ Hd). reflexivity.
Qed.

End Methods.

(** ** Observations on a run *)

(** The advisories of a run: what [console.info] printed. *)
Fixpoint advisories (t : list event) : list string :=
  match t with
  | ConsoleInfo text :: t' => text :: advisories t'
  | _ :: t' => advisories t'
  | [] => []
  end.

(** The number of calls of the download capability for one artifact in a
    run; for the manifest these are its refetches. *)
Fixpoint fetches (what : artifact) (t : list event) : nat :=
  match t with
  | Download VersionInfo _ _ :: t' =>
      match what with
      | VersionInfo => S (fetches what t')
      | Compiler => fetches what t'
      end
  | Download Compiler _ _ :: t' =>
      match what with
      | VersionInfo => fetches what t'
      | Compiler => S (fetches what t')
      end
  | _ :: t' => fetches what t'
  | [] => O
  end.

Definition refetches (t : list event) : nat := fetches VersionInfo t.

Lemma advisories_app t1 t2 :
  advisories (t1 ++ t2) = (advisories t1 ++ advisories t2)%list.
Proof.
  induction t1 as [|e t1 IH]; [reflexivity|].
  destruct e; cbn; rewrite IH; reflexivity.
Qed.

Lemma fetches_app what t1 t2 :
  fetches what (t1 ++ t2) = (fetches what t1 + fetches what t2)%nat.
Proof.
  induction t1 as [|e t1 IH]; [reflexivity|].
  destruct what, e as [| | |[]| | |]; cbn; rewrite IH; reflexivity.
Qed.

Section Manifest.
Context `{Imports}.
Implicit Types (this : ZksolcCompilerDownloader) (w : World).

(** The manifest that session construction works with (lines 40-52):
    the cached one when it is within its cache period, otherwise the one
    it fetches. *)
Inductive ManifestAtConstruction this w : CompilerVersionInfo -> Prop :=
| cached_within_period f info :
    fs w !! _getCompilerVersionInfoPath this = Some f ->
    parseJSON (data f) = Some info ->
    now w - ctimeMs f <= _compilerVersionInfoCachePeriodMs this ->
    ManifestAtConstruction this w info
| refreshed_after_period f old body info :
    fs w !! _getCompilerVersionInfoPath this = Some f ->
    parseJSON (data f) = Some old ->
    now w - ctimeMs f > _compilerVersionInfoCachePeriodMs this ->
    net w versionInfoUrl = Fetched body ->
    parseJSON body = Some info ->
    ManifestAtConstruction this w info
| fetched_when_absent body info :
    fs w !! _getCompilerVersionInfoPath this = None ->
    net w versionInfoUrl = Fetched body ->
    parseJSON body = Some info ->
    ManifestAtConstruction this w info.

(** The manifest that [downloadCompiler] works with (lines 118-132): the
    cached one whenever there is one, otherwise the one it fetches. *)
Inductive ManifestAtDownload this w : CompilerVersionInfo -> Prop :=
| cached_at_download f info :
    fs w !! _getCompilerVersionInfoPath this = Some f ->
    parseJSON (data f) = Some info ->
    ManifestAtDownload this w info
| fetched_at_download body info :
    fs w !! _getCompilerVersionInfoPath this = None ->
    net w versionInfoUrl = Fetched body ->
    parseJSON body = Some info ->
    ManifestAtDownload this w info.

(** Lines 50-63 of [getDownloaderWithVersionValidated], as a function of
    the manifest that lines 40-48 end with. *)
Definition resolveVersion (version : string)
    (compilerVersionInfo : option CompilerVersionInfo)
  : M ZksolcCompilerDownloader :=
  match compilerVersionInfo with
  | None =>
      throw (ZkSyncSolcPluginError COMPILER_VERSION_INFO_FILE_NOT_FOUND_ERROR)
  | Some compilerVersionInfo =>
      (if (String.eqb version "latest"
           || String.eqb version (latest compilerVersionInfo))%bool
       then
         modify (fun w =>
           with_instance w
             (flip set_version (latest compilerVersionInfo) <$> _instance w))
       else if negb (isVersionInRange version compilerVersionInfo) then
         throw (ZkSyncSolcPluginError
                  (COMPILER_VERSION_RANGE_ERROR version
                     (minVersion compilerVersionInfo)
                     (latest compilerVersionInfo)))
       else
         console_info (chalk_yellow
           (COMPILER_VERSION_WARNING version (latest compilerVersionInfo)))) ;;;
      let* instance := gets _instance in
      match instance with
      | Some this => ret this
      | None => throw (Error "unreachable")
      end
  end.

(** Lines 133-145 of [downloadCompiler], as a function of the manifest
    that lines 118-128 end with. *)
Definition validateAndDownload this
    (compilerVersionInfo : option CompilerVersionInfo) : M unit :=
  match compilerVersionInfo with
  | None =>
      throw (ZkSyncSolcPluginError COMPILER_VERSION_INFO_FILE_NOT_FOUND_ERROR)
  | Some compilerVersionInfo =>
      if negb (isVersionInRange (_version this) compilerVersionInfo) then
        throw (ZkSyncSolcPluginError
                 (COMPILER_VERSION_RANGE_ERROR (_version this)
                    (minVersion compilerVersionInfo)
                    (latest compilerVersionInfo)))
      else
        try_catch (_downloadCompiler this ;;; ret tt)
          (fun e => throw (ZkSyncSolcPluginError
                             (hd "" (split newline (message_of e))))) ;;;
        _postProcessCompilerDownload this ;;;
        verifyCompiler this
  end.

(** Prefixing a run with what happened before it. *)
Definition after {A} (t : list event) (o : Outcome A) : Outcome A :=
  {| res := res o; final := final o; trace := t ++ trace o |}.

End Manifest.

(** ** The manifest phase of the two operations, case by case *)

Section ManifestPhase.
Context `{Imports}.
Implicit Types (this : ZksolcCompilerDownloader) (w : World).

(** What lines 42-47 (and 121-127) do after the events [pre], for the
    rest [k] of the method. *)
Definition refetched {B} this (k : option CompilerVersionInfo -> M B)
    (pre : list event) w : Outcome B :=
  match net w versionInfoUrl with
  | Failed _ =>
      {| res := Throw (ZkSyncSolcPluginError
                         COMPILER_VERSION_INFO_FILE_DOWNLOAD_ERROR);
         final := w;
         trace := pre ++ [Download VersionInfo versionInfoUrl
                            (_getCompilerVersionInfoPath this)] |}
  | Fetched body =>
      match parseJSON body with
      | Some info =>
          after (pre ++ [Download VersionInfo versionInfoUrl
                           (_getCompilerVersionInfoPath this);
                         PathExists (_getCompilerVersionInfoPath this);
                         ReadJSON (_getCompilerVersionInfoPath this)])
            (k (Some info)
               (written w (_getCompilerVersionInfoPath this) body))
      | None =>
          {| res := Throw (Error "SyntaxError");
             final := written w (_getCompilerVersionInfoPath this) body;
             trace := pre ++ [Download VersionInfo versionInfoUrl
                                (_getCompilerVersionInfoPath this);
                              PathExists (_getCompilerVersionInfoPath this);
                              ReadJSON (_getCompilerVersionInfoPath this)] |}
      end
  end.

Lemma refetch_cases {B} this (k : option CompilerVersionInfo -> M B) w :
  (let* compilerVersionInfo :=
     try_catch (_downloadCompilerVersionInfo this)
       (fun e => throw (ZkSyncSolcPluginError
                          COMPILER_VERSION_INFO_FILE_DOWNLOAD_ERROR)) ;;;
     _getCompilerVersionInfo this in
   k compilerVersionInfo) w
  = refetched this k [] w.
Proof.
  unfold refetched.
  destruct (net w versionInfoUrl) as [body|msg] eqn:Hnet.
  - destruct (parseJSON body) as [info|] eqn:Hbody.
    + rewrite (bind_ok _ _ _ _ _ _ (refetch_parsed this w _ body info Hnet Hbody)).
      reflexivity.
    + rewrite (bind_throw _ _ _ _ _ _ (refetch_malformed this w _ body Hnet Hbody)).
      reflexivity.
  - rewrite (bind_throw _ _ _ _ _ _ (refetch_failed this w msg Hnet)).
    reflexivity.
Qed.

Lemma after_refetched {B} this (k : option CompilerVersionInfo -> M B) t w :
  after t (refetched this k [] w) = refetched this k t w.
Proof.
  unfold refetched, after.
  destruct (net w versionInfoUrl) as [body|msg]; [|reflexivity].
  destruct (parseJSON body) as [info|]; cbn; [|reflexivity].
  rewrite <- app_assoc. reflexivity.
Qed.

(** Lines 118-132 of [downloadCompiler]. *)
Lemma downloadCompiler_cases this w :
  downloadCompiler this w =
    match fs w !! _getCompilerVersionInfoPath this with
    | None =>
        refetched this (validateAndDownload this)
          [PathExists (_getCompilerVersionInfoPath this);
           PathExists (_getCompilerVersionInfoPath this)] w
    | Some f =>
        match parseJSON (data f) with
        | Some info =>
            after [PathExists (_getCompilerVersionInfoPath this);
                   ReadJSON (_getCompilerVersionInfoPath this)]
              (validateAndDownload this (Some info) w)
        | None =>
            {| res := Throw (Error "SyntaxError"); final := w;
               trace := [PathExists (_getCompilerVersionInfoPath this);
                         ReadJSON (_getCompilerVersionInfoPath this)] |}
        end
    end.
Proof.
  unfold downloadCompiler.
  destruct (fs w !! _getCompilerVersionInfoPath this) as [f|] eqn:Hfs.
  - destruct (parseJSON (data f)) as [info|] eqn:Hparse.
    + rewrite (bind_ok _ _ _ _ _ _
                 (_getCompilerVersionInfo_present this w f info Hfs Hparse)).
      reflexivity.
    + rewrite (bind_throw _ _ _ _ _ _
                 (_getCompilerVersionInfo_malformed this w f Hfs Hparse)).
      reflexivity.
  - rewrite (bind_ok _ _ _ _ _ _ (_getCompilerVersionInfo_absent this w Hfs)).
    rewrite (bind_ok _ _ _ _ _ _
               (_shouldDownloadCompilerVersionInfo_absent this w Hfs)).
    cbn [res final trace].
    rewrite (refetch_cases this _ w).
    rewrite <- (after_refetched this _ [_; _]).
    reflexivity.
Qed.

(** Lines 37-52 of [getDownloaderWithVersionValidated] on the first call:
    [w0] is the world once line 38 has set the static. *)
Lemma construction_cases version configCompilerPath compilersDir w :
  let this :=
    new_ZksolcCompilerDownloader version configCompilerPath compilersDir
      (defaultCompilerVersionInfoCachePeriod w) in
  let w0 := with_instance w (Some this) in
  _instance w = None ->
  getDownloaderWithVersionValidated version configCompilerPath compilersDir w
  = match fs w !! _getCompilerVersionInfoPath this with
    | None =>
        refetched this (resolveVersion version)
          [PathExists (_getCompilerVersionInfoPath this)] w0
    | Some f =>
        match parseJSON (data f) with
        | Some info =>
            if now w - ctimeMs f >? _compilerVersionInfoCachePeriodMs this
            then
              refetched this (resolveVersion version)
                [PathExists (_getCompilerVersionInfoPath this);
                 ReadJSON (_getCompilerVersionInfoPath this);
                 PathExists (_getCompilerVersionInfoPath this);
                 Stat (_getCompilerVersionInfoPath this)] w0
            else
              after [PathExists (_getCompilerVersionInfoPath this);
                     ReadJSON (_getCompilerVersionInfoPath this);
                     PathExists (_getCompilerVersionInfoPath this);
                     Stat (_getCompilerVersionInfoPath this)]
                (resolveVersion version (Some info) w0)
        | None =>
            {| res := Throw (Error "SyntaxError"); final := w0;
               trace := [PathExists (_getCompilerVersionInfoPath this);
                         ReadJSON (_getCompilerVersionInfoPath this)] |}
        end
    end.
Proof.
  intros this w0 Hinst.
  unfold getDownloaderWithVersionValidated.
  unfold bind at 1. cbn. rewrite Hinst. cbn.
  fold this. fold w0.
  change (fs w !! _getCompilerVersionInfoPath this)
    with (fs w0 !! _getCompilerVersionInfoPath this).
  destruct (fs w0 !! _getCompilerVersionInfoPath this) as [f|] eqn:Hfs.
  - destruct (parseJSON (data f)) as [info|] eqn:Hparse.
    + rewrite (bind_ok _ _ _ _ _ _
                 (_getCompilerVersionInfo_present this w0 f info Hfs Hparse)).
      rewrite (bind_ok _ _ _ _ _ _
                 (_shouldDownloadCompilerVersionInfo_present this w0 f Hfs)).
      change (now w0) with (now w).
      change (_compilerVersionInfoCachePeriodMs this)
        with (defaultCompilerVersionInfoCachePeriod w).
      destruct (now w - ctimeMs f >? defaultCompilerVersionInfoCachePeriod w).
      * cbn [res final trace].
        rewrite (refetch_cases this _ w0).
        rewrite <- (after_refetched this _ [_; _; _; _]).
        reflexivity.
      * reflexivity.
    + rewrite (bind_throw _ _ _ _ _ _
                 (_getCompilerVersionInfo_malformed this w0 f Hfs Hparse)).
      reflexivity.
  - rewrite (bind_ok _ _ _ _ _ _ (_getCompilerVersionInfo_absent this w0 Hfs)).
    rewrite (bind_ok (ret true) _ w0 true w0 [] eq_refl).
    cbn [res final trace].
    rewrite (refetch_cases this _ w0).
    rewrite <- (after_refetched this _ [_]).
    reflexivity.
Qed.

(** What the first call does up to line 52 when construction has a
    manifest to work with. *)
Lemma construction_manifest version configCompilerPath compilersDir w info :
  let this :=
    new_ZksolcCompilerDownloader version configCompilerPath compilersDir
      (defaultCompilerVersionInfoCachePeriod w) in
  _instance w = None ->
  ManifestAtConstruction this w info ->
  exists w1 t1,
    getDownloaderWithVersionValidated version configCompilerPath compilersDir w
      = after t1 (resolveVersion version (Some info) w1)
    /\ _instance w1 = Some this
    /\ advisories t1 = [].
Proof.
  intros this Hinst Hm.
  rewrite (construction_cases version configCompilerPath compilersDir w Hinst).
  fold this.
  destruct Hm as [f info Hfs Hparse Hage
                 |f old body info Hfs Hparse Hage Hnet Hbody
                 |body info Hfs Hnet Hbody].
  - rewrite Hfs, Hparse.
    replace (now w - ctimeMs f >? _compilerVersionInfoCachePeriodMs this)
      with false by (rewrite Z.gtb_ltb; symmetry; apply Z.ltb_ge; lia).
    eexists _, _. split; [reflexivity | split; reflexivity].
  - rewrite Hfs, Hparse.
    replace (now w - ctimeMs f >? _compilerVersionInfoCachePeriodMs this)
      with true by (rewrite Z.gtb_ltb; symmetry; apply Z.ltb_lt; lia).
    unfold refetched.
    change (net (with_instance w (Some this))) with (net w).
    rewrite Hnet, Hbody.
    eexists _, _. split; [reflexivity | split; reflexivity].
  - rewrite Hfs. unfold refetched.
    change (net (with_instance w (Some this))) with (net w).
    rewrite Hnet, Hbody.
    eexists _, _. split; [reflexivity | split; reflexivity].
Qed.

End ManifestPhase.

(** ** Session construction *)

Section Construction.
Context `{Imports}.
Implicit Types (this : ZksolcCompilerDownloader) (w : World).

Lemma resolveVersion_latest version info w this :
  _instance w = Some this ->
  version = "latest" \/ version = latest info ->
  resolveVersion version (Some info) w =
    {| res := Ok (set_version this (latest info));
       final := with_instance w (Some (set_version this (latest info)));
       trace := [] |}.
Proof.
  intros Hinst Hv. unfold resolveVersion.
  assert (Hb : (String.eqb version "latest"
                || String.eqb version (latest info))%bool = true).
  { apply orb_true_iff. destruct Hv as [->| ->]; [left|right];
      apply String.eqb_refl. }
  rewrite Hb. unfold bind, modify, gets; cbn. rewrite Hinst. reflexivity.
Qed.

Lemma resolveVersion_pinned version info w :
  version <> "latest" ->
  version <> latest info ->
  (String.eqb version "latest"
   || String.eqb version (latest info))%bool = false.
Proof.
  intros H1 H2. apply orb_false_iff; split; apply String.eqb_neq; assumption.
Qed.

Lemma resolveVersion_out_of_range version info w :
  version <> "latest" ->
  version <> latest info ->
  isVersionInRange version info = false ->
  resolveVersion version (Some info) w =
    {| res := Throw (ZkSyncSolcPluginError
                       (COMPILER_VERSION_RANGE_ERROR version
                          (minVersion info) (latest info)));
       final := w; trace := [] |}.
Proof.
  intros H1 H2 Hr. unfold resolveVersion.
  rewrite (resolveVersion_pinned version info w H1 H2), Hr. reflexivity.
Qed.

Lemma resolveVersion_in_range version info w this :
  _instance w = Some this ->
  version <> "latest" ->
  version <> latest info ->
  isVersionInRange version info = true ->
  resolveVersion version (Some info) w =
    {| res := Ok this; final := w;
       trace := [ConsoleInfo (chalk_yellow
                   (COMPILER_VERSION_WARNING version (latest info)))] |}.
Proof.
  intros Hinst H1 H2 Hr. unfold resolveVersion.
  rewrite (resolveVersion_pinned version info w H1 H2), Hr.
  unfold bind, console_info, emit, gets; cbn. rewrite Hinst. reflexivity.
Qed.

(** C1. On the first call, when the requested version is the string
    "latest" or is equal, as a string, to the [latest] field of the
    manifest that construction works with, the session is returned with
    its version set to exactly that [latest] field, the static instance is
    that session, no error is raised and nothing is printed.  Neither
    [minVersion] nor [isVersionInRange] plays a part. *)
Theorem latest_resolves_to_manifest_latest
    version configCompilerPath compilersDir w info :
  let this :=
    new_ZksolcCompilerDownloader version configCompilerPath compilersDir
      (defaultCompilerVersionInfoCachePeriod w) in
  let run :=
    getDownloaderWithVersionValidated version configCompilerPath
      compilersDir w in
  _instance w = None ->
  ManifestAtConstruction this w info ->
  version = "latest" \/ version = latest info ->
  res run = Ok (set_version this (latest info))
  /\ _version (set_version this (latest info)) = latest info
  /\ _instance (final run) = Some (set_version this (latest info))
  /\ advisories (trace run) = [].
Proof.
  intros this run Hinst Hm Hv. subst run.
  destruct (construction_manifest version configCompilerPath compilersDir
              w info Hinst Hm) as (w1 & t1 & -> & Hw1 & Ht1).
  rewrite (resolveVersion_latest version info w1 _ Hw1 Hv).
  unfold after; cbn. rewrite advisories_app, Ht1.
  repeat split; reflexivity.
Qed.

(** Rejection at construction.  On the first call, a requested version
    that is not "latest", is not the manifest's [latest] string and is rejected by
    [isVersionInRange] makes construction throw the plugin error built by
    [COMPILER_VERSION_RANGE_ERROR] from the requested string, the
    manifest's [minVersion] and its [latest]. *)
Lemma construction_rejects_out_of_range
    version configCompilerPath compilersDir w info :
  let this :=
    new_ZksolcCompilerDownloader version configCompilerPath compilersDir
      (defaultCompilerVersionInfoCachePeriod w) in
  _instance w = None ->
  ManifestAtConstruction this w info ->
  version <> "latest" ->
  version <> latest info ->
  isVersionInRange version info = false ->
  res (getDownloaderWithVersionValidated version configCompilerPath
         compilersDir w)
    = Throw (ZkSyncSolcPluginError
               (COMPILER_VERSION_RANGE_ERROR version
                  (minVersion info) (latest info))).
Proof.
  intros this Hinst Hm H1 H2 Hr.
  destruct (construction_manifest version configCompilerPath compilersDir
              w info Hinst Hm) as (w1 & t1 & -> & Hw1 & Ht1).
  rewrite (resolveVersion_out_of_range version info w1 H1 H2 Hr).
  reflexivity.
Qed.

(** C6. On the first call, a requested version that is not "latest", is
    not the manifest's [latest] string and is accepted by
    [isVersionInRange] is kept: construction returns the session with the
    requested string as its version, raises nothing, and prints exactly
    one advisory, the text of [COMPILER_VERSION_WARNING] for the requested
    version and the manifest's [latest]. *)
Theorem pinned_version_accepted_with_one_advisory
    version configCompilerPath compilersDir w info :
  let this :=
    new_ZksolcCompilerDownloader version configCompilerPath compilersDir
      (defaultCompilerVersionInfoCachePeriod w) in
  let run :=
    getDownloaderWithVersionValidated version configCompilerPath
      compilersDir w in
  _instance w = None ->
  ManifestAtConstruction this w info ->
  version <> "latest" ->
  version <> latest info ->
  isVersionInRange version info = true ->
  res run = Ok this
  /\ _version this = version
  /\ _instance (final run) = Some this
  /\ advisories (trace run) =
       [chalk_yellow (COMPILER_VERSION_WARNING version (latest info))].
Proof.
  intros this run Hinst Hm H1 H2 Hr. subst run.
  destruct (construction_manifest version configCompilerPath compilersDir
              w info Hinst Hm) as (w1 & t1 & -> & Hw1 & Ht1).
  rewrite (resolveVersion_in_range version info w1 _ Hw1 H1 H2 Hr).
  unfold after; cbn. rewrite advisories_app, Ht1.
  repeat split; try reflexivity. exact Hw1.
Qed.

End Construction.

(** ** The version pattern *)

(** What [/\d+\.\d+\.\d+/] matches, stated without the matcher: three
    non-empty runs of digits separated by dots. *)
Fixpoint allDigits (s : string) : bool :=
  match s with
  | EmptyString => true
  | String c s' => (isDigit c && allDigits s')%bool
  end.

Definition Digits (d : string) : Prop :=
  d <> EmptyString /\ allDigits d = true.

Definition VersionText (m : string) : Prop :=
  exists d1 d2 d3,
    Digits d1 /\ Digits d2 /\ Digits d3 /\
    m = d1 +:+ String dot (d2 +:+ String dot d3).

(** [m] occurs in [s] right after the prefix [pre]. *)
Definition OccursAt (s pre m : string) : Prop :=
  exists post, s = pre +:+ (m +:+ post).

Definition ContainsVersion (s : string) : Prop :=
  exists pre m, OccursAt s pre m /\ VersionText m.

(** The match a backtracking engine reports: the leftmost start, and from
    there the longest text, as the quantifiers are greedy. *)
Definition FirstVersion (s m : string) : Prop :=
  exists pre,
    OccursAt s pre m /\ VersionText m /\
    forall pre' m', OccursAt s pre' m' -> VersionText m' ->
      (String.length pre < String.length pre')%nat
      \/ (pre' = pre /\ (String.length m' <= String.length m)%nat).

Definition startsWithDigit (s : string) : bool :=
  match s with
  | String c _ => isDigit c
  | EmptyString => false
  end.

Section Pattern.
#[local] Arguments String.append !_ _ / : simpl nomatch.

Lemma append_assoc (a b c : string) : (a +:+ b) +:+ c = a +:+ (b +:+ c).
Proof. induction a as [|x a IH]; simpl; congruence. Qed.

Lemma append_empty_r (a : string) : a +:+ EmptyString = a.
Proof. induction a as [|x a IH]; simpl; congruence. Qed.

Lemma append_length (a b : string) :
  String.length (a +:+ b) = (String.length a + String.length b)%nat.
Proof. induction a as [|x a IH]; simpl; congruence. Qed.

Lemma append_cancel_l (p a b : string) : p +:+ a = p +:+ b -> a = b.
Proof.
  induction p as [|x p IH]; cbn; intros Heq; [exact Heq|].
  injection Heq as Heq. apply IH, Heq.
Qed.

Lemma append_same_length (a b x y : string) :
  a +:+ x = b +:+ y -> String.length a = String.length b -> a = b.
Proof.
  revert b. induction a as [|c a IH]; intros [|d b]; cbn; intros Heq Hlen;
    try discriminate; [reflexivity|].
  injection Heq as -> Heq. injection Hlen as Hlen.
  f_equal. apply IH; assumption.
Qed.

Lemma spanDigits_spec s :
  s = fst (spanDigits s) +:+ snd (spanDigits s)
  /\ allDigits (fst (spanDigits s)) = true
  /\ startsWithDigit (snd (spanDigits s)) = false.
Proof.
  induction s as [|c s (IH1 & IH2 & IH3)]; cbn; [repeat split|].
  destruct (isDigit c) eqn:Hc.
  - destruct (spanDigits s) as [ds rest]; cbn in *.
    rewrite Hc, IH2. repeat split; [f_equal; exact IH1 | exact IH3].
  - cbn. rewrite Hc. repeat split.
Qed.

Lemma spanDigits_stop s : startsWithDigit s = false -> spanDigits s = (EmptyString, s).
Proof.
  destruct s as [|c s]; cbn; [reflexivity|]. intros ->. reflexivity.
Qed.

Lemma spanDigits_append d r :
  allDigits d = true ->
  spanDigits (d +:+ r) = (d +:+ fst (spanDigits r), snd (spanDigits r)).
Proof.
  induction d as [|c d IH]; cbn; intros Hd.
  - destruct (spanDigits r); reflexivity.
  - apply andb_true_iff in Hd as [Hc Hd]. rewrite Hc, (IH Hd). reflexivity.
Qed.

Lemma spanDigits_before_dot d r :
  allDigits d = true ->
  spanDigits (d +:+ String dot r) = (d, String dot r).
Proof.
  intros Hd. rewrite (spanDigits_append _ _ Hd).
  rewrite (spanDigits_stop (String dot r)) by reflexivity.
  cbn. rewrite append_empty_r. reflexivity.
Qed.

Lemma matchAtStart_sound s m :
  matchAtStart s = Some m ->
  VersionText m /\ exists post, s = m +:+ post.
Proof.
  unfold matchAtStart.
  destruct (spanDigits_spec s) as (Hs & Hd1 & _).
  destruct (spanDigits s) as [d1 r1]; cbn in Hs, Hd1.
  destruct d1 as [|a1 d1]; [discriminate|].
  destruct r1 as [|c1 r1]; [discriminate|].
  destruct (Ascii.eqb c1 dot) eqn:Hc1; [|discriminate].
  apply Ascii.eqb_eq in Hc1. subst c1.
  destruct (spanDigits_spec r1) as (Hr1 & Hd2 & _).
  destruct (spanDigits r1) as [d2 r2]; cbn in Hr1, Hd2.
  destruct d2 as [|a2 d2]; [discriminate|].
  destruct r2 as [|c2 r2]; [discriminate|].
  destruct (Ascii.eqb c2 dot) eqn:Hc2; [|discriminate].
  apply Ascii.eqb_eq in Hc2. subst c2.
  destruct (spanDigits_spec r2) as (Hr2 & Hd3 & _).
  destruct (spanDigits r2) as [d3 r3]; cbn in Hr2, Hd3.
  destruct d3 as [|a3 d3]; [discriminate|].
  intros [= <-]. split.
  - exists (String a1 d1), (String a2 d2), (String a3 d3).
    repeat split; (discriminate || assumption).
  - exists r3. rewrite Hr2 in Hr1. rewrite Hr1 in Hs. rewrite Hs.
    repeat (rewrite append_assoc || simpl). reflexivity.
Qed.

Lemma matchAtStart_complete m post :
  VersionText m ->
  matchAtStart (m +:+ post) = Some (m +:+ fst (spanDigits post)).
Proof.
  intros (d1 & d2 & d3 & [Hn1 Hd1] & [Hn2 Hd2] & [Hn3 Hd3] & ->).
  unfold matchAtStart.
  repeat (rewrite append_assoc || simpl).
  rewrite (spanDigits_before_dot d1 _ Hd1).
  destruct d1 as [|a1 d1]; [congruence|].
  rewrite Ascii.eqb_refl.
  rewrite (spanDigits_before_dot d2 _ Hd2).
  destruct d2 as [|a2 d2]; [congruence|].
  rewrite Ascii.eqb_refl.
  rewrite (spanDigits_append d3 post Hd3).
  destruct d3 as [|a3 d3]; [congruence|].
  repeat (rewrite append_assoc || simpl). reflexivity.
Qed.

Lemma regexMatch_unfold s :
  regexMatch s =
    match matchAtStart s with
    | Some m => Some m
    | None =>
        match s with
        | String _ s' => regexMatch s'
        | EmptyString => None
        end
    end.
Proof. destruct s; reflexivity. Qed.

Lemma occurs_at_start s m :
  OccursAt s EmptyString m -> VersionText m -> matchAtStart s <> None.
Proof.
  intros [post ->] Hm. cbn. rewrite (matchAtStart_complete m post Hm).
  discriminate.
Qed.

Lemma regexMatch_none s : regexMatch s = None -> ~ ContainsVersion s.
Proof.
  induction s as [|c s IH]; rewrite regexMatch_unfold;
    destruct (matchAtStart _) eqn:Hm0; try discriminate;
    intros Hr (pre & m & Hocc & Hm).
  - destruct pre as [|x pre].
    + apply (occurs_at_start _ _ Hocc Hm), Hm0.
    + destruct Hocc as [post Hocc]. discriminate.
  - destruct pre as [|x pre].
    + apply (occurs_at_start _ _ Hocc Hm), Hm0.
    + destruct Hocc as [post Hocc]. cbn in Hocc. injection Hocc as _ Hocc.
      apply (IH Hr). exists pre, m. split; [exists post; exact Hocc | exact Hm].
Qed.

Lemma matchAtStart_first s m :
  matchAtStart s = Some m -> FirstVersion s m.
Proof.
  intros Hm0. destruct (matchAtStart_sound s m Hm0) as (Hm & post & Hs).
  exists EmptyString. split; [exists post; exact Hs | split; [exact Hm|]].
  intros pre' m' Hocc Hm'.
  destruct pre' as [|x pre']; [right; split; [reflexivity|] | left; cbn; lia].
  destruct Hocc as [post' Hocc]. cbn in Hocc.
  rewrite Hocc, (matchAtStart_complete m' post' Hm') in Hm0.
  injection Hm0 as <-. rewrite append_length. lia.
Qed.

Lemma regexMatch_first s m : regexMatch s = Some m -> FirstVersion s m.
Proof.
  revert m. induction s as [|c s IH]; intros m; rewrite regexMatch_unfold;
    destruct (matchAtStart _) eqn:Hm0; try discriminate.
  - intros [= <-]. apply matchAtStart_first, Hm0.
  - intros Hr. destruct (IH m Hr) as (pre & [post Hocc] & Hm & Hmin).
    exists (String c pre). split; [exists post; cbn; f_equal; exact Hocc|].
    split; [exact Hm|].
    intros pre' m' Hocc' Hm'. destruct pre' as [|x pre'].
    + exfalso. apply (occurs_at_start _ _ Hocc' Hm'), Hm0.
    + destruct Hocc' as [post' Hocc']. cbn in Hocc'.
      injection Hocc' as <- Hocc'.
      destruct (Hmin pre' m') as [Hlt | [-> Hle]];
        [exists post'; exact Hocc' | exact Hm' | left; cbn; lia |].
      right. split; [reflexivity | exact Hle].
Qed.

Lemma regexMatch_contains s :
  ContainsVersion s -> exists m, regexMatch s = Some m.
Proof.
  intros Hc. destruct (regexMatch s) as [m|] eqn:Hr; [exists m; reflexivity|].
  exfalso. exact (regexMatch_none s Hr Hc).
Qed.

Lemma regexMatch_contains_inv s m :
  regexMatch s = Some m -> ContainsVersion s.
Proof.
  intros Hr. destruct (regexMatch_first s m Hr) as (pre & Ho & Hm & _).
  exists pre, m. split; assumption.
Qed.

Lemma FirstVersion_unique s m1 m2 :
  FirstVersion s m1 -> FirstVersion s m2 -> m1 = m2.
Proof.
  intros (pre1 & Ho1 & Hm1 & Hmin1) (pre2 & Ho2 & Hm2 & Hmin2).
  destruct (Hmin1 pre2 m2 Ho2 Hm2) as [Hlt1 | [-> Hle1]];
    destruct (Hmin2 pre1 m1 Ho1 Hm1) as [Hlt2 | [Heq Hle2]];
    try subst; try lia.
  destruct Ho1 as [post1 Hs1], Ho2 as [post2 Hs2].
  rewrite Hs1 in Hs2. apply append_cancel_l in Hs2.
  apply (append_same_length _ _ _ _ Hs2). lia.
Qed.

(** The matcher computes the first match of the pattern, and finds none
    exactly when the text contains none. *)
Lemma regexMatch_spec s m : regexMatch s = Some m <-> FirstVersion s m.
Proof.
  split; [apply regexMatch_first|].
  intros Hf. destruct (regexMatch_contains s) as [m' Hm'].
  - destruct Hf as (pre & Ho & Hm & _). exists pre, m. split; assumption.
  - rewrite Hm'. f_equal.
    apply (FirstVersion_unique s); [apply regexMatch_first, Hm' | exact Hf].
Qed.

Lemma regexMatch_none_spec s : regexMatch s = None <-> ~ ContainsVersion s.
Proof.
  split; [apply regexMatch_none|].
  intros Hn. destruct (regexMatch s) as [m|] eqn:Hr; [|reflexivity].
  exfalso. apply Hn. destruct (regexMatch_first s m Hr) as (pre & Ho & Hm & _).
  exists pre, m. split; assumption.
Qed.

End Pattern.

(** ** Verification of the binary *)

Section Verification.
Context `{Imports}.
Implicit Types (this : ZksolcCompilerDownloader) (w : World).

(** The text of the advisory of line 198. *)
Definition mismatchAdvisory this (version : string) : string :=
  chalk_yellow
    ("zksolc compiler version mismatch: expected " +:+ _version this
       +:+ ", got " +:+ version).

(** What [verifyCompiler] makes of the subprocess's result. *)
Definition Corrupted (r : SpawnSyncReturns) : Prop :=
  status r <> Some 0
  \/ ~ (exists out, stdout r = Some out /\ ContainsVersion out).

Lemma verifyCompiler_run this w :
  verifyCompiler this w =
    after [SpawnSync (getCompilerPath this) ["--version"]]
      (match status (exec w (fs w !! getCompilerPath this) ["--version"]),
             stdout (exec w (fs w !! getCompilerPath this) ["--version"])
               ≫= regexMatch with
       | Some 0, Some version =>
           if negb (String.eqb (_version this) version)
           then console_info (mismatchAdvisory this version) w
           else ret tt w
       | _, _ =>
           throw (ZkSyncSolcPluginError COMPILER_BINARY_CORRUPTION_ERROR) w
       end).
Proof.
  unfold verifyCompiler, bind, spawnSync, emit, gets, ret, after; cbn.
  destruct (exec w (fs w !! getCompilerPath this) ["--version"])
    as [[[|p|p]|] [out|]]; cbn; try reflexivity;
    destruct (regexMatch out); cbn; try reflexivity;
    destruct (negb _); reflexivity.
Qed.

Lemma verifyCompiler_corrupted this w :
  Corrupted (exec w (fs w !! getCompilerPath this) ["--version"]) ->
  verifyCompiler this w =
    {| res := Throw (ZkSyncSolcPluginError COMPILER_BINARY_CORRUPTION_ERROR);
       final := w;
       trace := [SpawnSync (getCompilerPath this) ["--version"]] |}.
Proof.
  intros Hc. rewrite verifyCompiler_run.
  destruct (exec w (fs w !! getCompilerPath this) ["--version"])
    as [st out]; cbn in *.
  destruct st as [[|p|p]|]; try reflexivity.
  destruct out as [out|]; [|reflexivity]. cbn.
  destruct (regexMatch out) as [v|] eqn:Hv; [|reflexivity].
  exfalso. destruct Hc as [Hst | Hno]; [apply Hst; reflexivity|].
  apply Hno. exists out. split; [reflexivity|].
  destruct (regexMatch_first out v Hv) as (pre & Ho & Hm & _).
  exists pre, v. split; assumption.
Qed.

Lemma verifyCompiler_accepted this w out v :
  status (exec w (fs w !! getCompilerPath this) ["--version"]) = Some 0 ->
  stdout (exec w (fs w !! getCompilerPath this) ["--version"]) = Some out ->
  FirstVersion out v ->
  verifyCompiler this w =
    {| res := Ok tt; final := w;
       trace := SpawnSync (getCompilerPath this) ["--version"] ::
                if String.eqb (_version this) v then []
                else [ConsoleInfo (mismatchAdvisory this v)] |}.
Proof.
  intros Hst Hout Hv. apply regexMatch_spec in Hv.
  rewrite verifyCompiler_run, Hst, Hout. cbn. rewrite Hv.
  destruct (String.eqb (_version this) v); reflexivity.
Qed.

Lemma verifyCompiler_final this w : final (verifyCompiler this w) = w.
Proof.
  rewrite verifyCompiler_run. unfold after; cbn [final].
  destruct (status _) as [[|p|p]|]; try reflexivity.
  destruct (_ ≫= _); [|reflexivity].
  destruct (negb _); reflexivity.
Qed.

Lemma verifyCompiler_ok_not_corrupted this w :
  res (verifyCompiler this w) = Ok tt ->
  ~ Corrupted (exec w (fs w !! getCompilerPath this) ["--version"]).
Proof.
  intros Hok Hc. rewrite (verifyCompiler_corrupted this w Hc) in Hok.
  discriminate.
Qed.

Lemma verifyCompiler_not_corrupted_ok this w :
  ~ Corrupted (exec w (fs w !! getCompilerPath this) ["--version"]) ->
  res (verifyCompiler this w) = Ok tt.
Proof.
  intros Hn. rewrite verifyCompiler_run. unfold after; cbn [res].
  destruct (exec w (fs w !! getCompilerPath this) ["--version"])
    as [st out]; cbn in *.
  destruct st as [[|p|p]|];
    try (exfalso; apply Hn; left; discriminate).
  destruct out as [out|]; cbn.
  - destruct (regexMatch out) as [v|] eqn:Hv.
    + destruct (negb _); reflexivity.
    + exfalso. apply Hn. right. intros (out' & [= <-] & Hc).
      apply regexMatch_none_spec in Hv. exact (Hv Hc).
  - exfalso. apply Hn. right. intros (out' & [=] & _).
Qed.

(** C5. [verifyCompiler] throws the plugin error with the text
    [COMPILER_BINARY_CORRUPTION_ERROR] if and only if the exit status of
    the subprocess is not 0 or its standard output contains no text of
    the form digits, dot, digits, dot, digits.  Otherwise it returns: when
    the first such text differs from the session's version it prints one
    advisory naming both, and when it is the same it prints nothing. *)
Theorem verifyCompiler_classification this w :
  let r := exec w (fs w !! getCompilerPath this) ["--version"] in
  let run := verifyCompiler this w in
  (res run = Throw (ZkSyncSolcPluginError COMPILER_BINARY_CORRUPTION_ERROR)
     <-> Corrupted r)
  /\ (forall out v,
        status r = Some 0 -> stdout r = Some out -> FirstVersion out v ->
        v <> _version this ->
        res run = Ok tt
        /\ advisories (trace run) = [mismatchAdvisory this v])
  /\ (forall out,
        status r = Some 0 -> stdout r = Some out ->
        FirstVersion out (_version this) ->
        res run = Ok tt /\ advisories (trace run) = []).
Proof.
  intros r run. subst r run. split; [split|split].
  - intros Hres.
    destruct (status (exec w (fs w !! getCompilerPath this) ["--version"]))
      as [st|] eqn:Hst; [|left; rewrite Hst; discriminate].
    destruct (Z.eq_dec st 0) as [->|Hne];
      [|left; rewrite Hst; congruence].
    right. intros (out & Hout & pre & m & Ho & Hm).
    destruct (regexMatch_contains out) as [v Hv];
      [exists pre, m; split; assumption|].
    apply regexMatch_spec in Hv.
    rewrite (verifyCompiler_accepted this w out v Hst Hout Hv) in Hres.
    discriminate.
  - intros Hc. rewrite (verifyCompiler_corrupted this w Hc). reflexivity.
  - intros out v Hst Hout Hv Hne.
    rewrite (verifyCompiler_accepted this w out v Hst Hout Hv). cbn.
    destruct (String.eqb_spec (_version this) v) as [Heq|_];
      [congruence | split; reflexivity].
  - intros out Hst Hout Hv.
    rewrite (verifyCompiler_accepted this w out _ Hst Hout Hv). cbn.
    rewrite String.eqb_refl. split; reflexivity.
Qed.

End Verification.

(** ** Downloading *)

Section Download.
Context `{Imports}.
Implicit Types (this : ZksolcCompilerDownloader) (w : World).

(** The URL that [_downloadCompiler] fetches (lines 156-159). *)
Definition compilerUrl this : string :=
  if negb (_isCompilerPathURL this)
  then getZksolcUrl ZKSOLC_BIN_REPOSITORY (_version this)
  else _configCompilerPath this.

(** The binary as lines 138 and 143 leave it. *)
Definition installedFile w (body : string) : File :=
  {| ctimeMs := now w; mode := 493; data := body |}.

Definition installed w (p body : string) : World :=
  with_fs (written w p body)
    (<[p := installedFile w body]> (fs (written w p body))).

Lemma installed_lookup w p body :
  fs (installed w p body) !! p = Some (installedFile w body).
Proof. unfold installed; cbn. apply lookup_insert_eq. Qed.

Lemma validate_out_of_range this info w :
  isVersionInRange (_version this) info = false ->
  validateAndDownload this (Some info) w =
    {| res := Throw (ZkSyncSolcPluginError
                       (COMPILER_VERSION_RANGE_ERROR (_version this)
                          (minVersion info) (latest info)));
       final := w; trace := [] |}.
Proof. intros Hr. unfold validateAndDownload. rewrite Hr. reflexivity. Qed.

Lemma validate_transport_failure this info w msg :
  isVersionInRange (_version this) info = true ->
  net w (compilerUrl this) = Failed msg ->
  validateAndDownload this (Some info) w =
    {| res := Throw (ZkSyncSolcPluginError (hd "" (split newline msg)));
       final := w;
       trace := [Download Compiler (compilerUrl this)
                   (getCompilerPath this)] |}.
Proof.
  intros Hr Hnet. unfold validateAndDownload. rewrite Hr. cbn [negb].
  apply bind_throw.
  assert (Hd : (_downloadCompiler this ;;; ret tt) w =
            {| res := Throw (Error msg); final := w;
               trace := [Download Compiler (compilerUrl this)
                           (getCompilerPath this)] |}).
  { apply bind_throw. unfold _downloadCompiler. apply bind_throw.
    apply download_failed. exact Hnet. }
  rewrite (try_catch_throw _ _ _ _ _ _ Hd). reflexivity.
Qed.

Lemma validate_downloaded this info w body :
  isVersionInRange (_version this) info = true ->
  net w (compilerUrl this) = Fetched body ->
  validateAndDownload this (Some info) w =
    after [Download Compiler (compilerUrl this) (getCompilerPath this);
           Chmod (getCompilerPath this) 493]
      (verifyCompiler this (installed w (getCompilerPath this) body)).
Proof.
  intros Hr Hnet. unfold validateAndDownload. rewrite Hr. cbn [negb].
  assert (Hd : (_downloadCompiler this ;;; ret tt) w =
            {| res := Ok tt;
               final := written w (getCompilerPath this) body;
               trace := [Download Compiler (compilerUrl this)
                           (getCompilerPath this)] |}).
  { assert (Hp : _downloadCompiler this w =
              {| res := Ok (getCompilerPath this);
                 final := written w (getCompilerPath this) body;
                 trace := [Download Compiler (compilerUrl this)
                             (getCompilerPath this)] |}).
    { unfold _downloadCompiler.
      rewrite (bind_ok _ _ _ _ _ _
                 (download_fetched Compiler (compilerUrl this)
                    (getCompilerPath this) w body Hnet)).
      reflexivity. }
    rewrite (bind_ok _ _ _ _ _ _ Hp). reflexivity. }
  rewrite (bind_ok _ _ _ _ _ _ (try_catch_ok _ _ _ _ _ _ Hd)).
  assert (Hc : _postProcessCompilerDownload this
                 (written w (getCompilerPath this) body) =
            {| res := Ok tt;
               final := installed w (getCompilerPath this) body;
               trace := [Chmod (getCompilerPath this) 493] |}).
  { unfold _postProcessCompilerDownload, chmodSync, bind, emit, gets,
      modify; cbn.
    rewrite lookup_insert_eq. reflexivity. }
  rewrite (bind_ok _ _ _ _ _ _ Hc).
  reflexivity.
Qed.

(** The same environment around a possibly different file system. *)
Definition SameEnvironment w w1 : Prop :=
  net w1 = net w /\ now w1 = now w /\ createMode w1 = createMode w
  /\ exec w1 = exec w /\ _instance w1 = _instance w.

Lemma download_manifest this w info :
  ManifestAtDownload this w info ->
  exists w1 t1,
    downloadCompiler this w = after t1 (validateAndDownload this (Some info) w1)
    /\ SameEnvironment w w1
    /\ hd_error t1 = Some (PathExists (_getCompilerVersionInfoPath this))
    /\ fetches Compiler t1 = O
    /\ advisories t1 = [].
Proof.
  intros Hm. rewrite downloadCompiler_cases.
  destruct Hm as [f info Hfs Hparse | body info Hfs Hnet Hbody].
  - rewrite Hfs, Hparse. eexists w, _. split; [reflexivity|].
    repeat split.
  - rewrite Hfs. unfold refetched. rewrite Hnet, Hbody.
    eexists (written w _ body), _. split; [reflexivity|].
    repeat split.
Qed.

End Download.

(** ** The first line of a message *)

(** [line] is [msg] up to its first newline, the newline excluded. *)
Definition FirstLine (msg line : string) : Prop :=
  (forall a b, line <> a +:+ String newline b)
  /\ (msg = line \/ exists rest, msg = line +:+ String newline rest).

Section Lines.
#[local] Arguments String.append !_ _ / : simpl nomatch.

Lemma split_nonempty sep s : exists piece pieces, split sep s = piece :: pieces.
Proof.
  destruct s as [|c s]; simpl; [eauto|].
  destruct (Ascii.eqb c sep); [eauto|].
  destruct (split sep s); eauto.
Qed.

Lemma split_first_line msg : FirstLine msg (hd EmptyString (split newline msg)).
Proof.
  induction msg as [|c msg [IHno IHeq]]; simpl.
  - split; [|left; reflexivity].
    intros [|x a] b; simpl; discriminate.
  - destruct (Ascii.eqb c newline) eqn:Hc; simpl.
    + apply Ascii.eqb_eq in Hc. subst c. split.
      * intros [|x a] b; simpl; discriminate.
      * right. exists msg. reflexivity.
    + apply Ascii.eqb_neq in Hc.
      destruct (split_nonempty newline msg) as (piece & pieces & Hsplit).
      rewrite Hsplit in *. simpl in *. split.
      * intros [|x a] b; simpl; intros [= Hx Hrest]; [congruence|].
        exact (IHno a b Hrest).
      * destruct IHeq as [-> | [rest ->]]; [left; reflexivity|].
        right. exists rest. reflexivity.
Qed.

End Lines.

(** ** Properties of [downloadCompiler] *)

Section DownloadProperties.
Context `{Imports}.
Implicit Types (this : ZksolcCompilerDownloader) (w : World).

Lemma resolveVersion_no_fetch what version o w :
  fetches what (trace (resolveVersion version o w)) = O.
Proof.
  destruct o as [info|]; [|reflexivity].
  unfold resolveVersion, bind, modify, gets, console_info, emit, throw.
  destruct (_ || _)%bool; cbn.
  - destruct (_instance w); reflexivity.
  - destruct (negb _); cbn; [reflexivity|].
    destruct (_instance w); reflexivity.
Qed.

Lemma verifyCompiler_no_fetch what this w :
  fetches what (trace (verifyCompiler this w)) = O.
Proof.
  rewrite verifyCompiler_run. unfold after; cbn.
  destruct (status _) as [[|p|p]|]; try reflexivity.
  destruct (_ ≫= _); [|reflexivity].
  destruct (negb _); reflexivity.
Qed.

Lemma validateAndDownload_no_refetch this o w :
  refetches (trace (validateAndDownload this o w)) = O.
Proof.
  destruct o as [info|]; [|reflexivity].
  destruct (isVersionInRange (_version this) info) eqn:Hr;
    [|rewrite (validate_out_of_range this info w Hr); reflexivity].
  destruct (net w (compilerUrl this)) as [body|msg] eqn:Hnet.
  - rewrite (validate_downloaded this info w body Hr Hnet).
    unfold refetches, after; cbn [trace].
    rewrite fetches_app, verifyCompiler_no_fetch. reflexivity.
  - rewrite (validate_transport_failure this info w msg Hr Hnet).
    reflexivity.
Qed.

Lemma refetched_count {B} this (k : option CompilerVersionInfo -> M B) pre w :
  (forall o w', refetches (trace (k o w')) = O) ->
  refetches (trace (refetched this k pre w)) = S (refetches pre).
Proof.
  intros Hk. unfold refetched, refetches in *.
  destruct (net w versionInfoUrl) as [body|msg].
  - destruct (parseJSON body) as [info|]; cbn.
    + rewrite !fetches_app, Hk. cbn. lia.
    + rewrite fetches_app. cbn. lia.
  - cbn. rewrite fetches_app. cbn. lia.
Qed.

(** C2, as the code has it.  On the first call, session construction
    fetches the manifest exactly once when the cache file is absent, and
    exactly once when the file is there, parses, and is older than the
    cache period; it does not fetch when the file parses and is within
    the period, nor when the file does not parse (the read fails first).
    [downloadCompiler] fetches exactly once when the file is absent and
    never when it is there, whatever its age. *)
Theorem manifest_refetch_policy
    version configCompilerPath compilersDir this w :
  let fresh :=
    new_ZksolcCompilerDownloader version configCompilerPath compilersDir
      (defaultCompilerVersionInfoCachePeriod w) in
  (_instance w = None ->
   refetches
     (trace (getDownloaderWithVersionValidated version configCompilerPath
               compilersDir w))
   = match fs w !! _getCompilerVersionInfoPath fresh with
     | None => 1%nat
     | Some f =>
         match parseJSON (data f) with
         | Some _ =>
             if now w - ctimeMs f >? defaultCompilerVersionInfoCachePeriod w
             then 1%nat else O
         | None => O
         end
     end)
  /\ refetches (trace (downloadCompiler this w))
     = match fs w !! _getCompilerVersionInfoPath this with
       | None => 1%nat
       | Some _ => O
       end.
Proof.
  intros fresh. split.
  - intros Hinst.
    rewrite (construction_cases version configCompilerPath compilersDir w Hinst).
    fold fresh.
    destruct (fs w !! _getCompilerVersionInfoPath fresh) as [f|].
    + destruct (parseJSON (data f)) as [info|]; [|reflexivity].
      change (_compilerVersionInfoCachePeriodMs fresh)
        with (defaultCompilerVersionInfoCachePeriod w).
      destruct (now w - ctimeMs f >? defaultCompilerVersionInfoCachePeriod w).
      * rewrite refetched_count; [reflexivity|].
        intros o w'. apply resolveVersion_no_fetch.
      * unfold after, refetches; cbn [trace].
        rewrite fetches_app, resolveVersion_no_fetch. reflexivity.
    + rewrite refetched_count; [reflexivity|].
      intros o w'. apply resolveVersion_no_fetch.
  - rewrite downloadCompiler_cases.
    destruct (fs w !! _getCompilerVersionInfoPath this) as [f|].
    + destruct (parseJSON (data f)) as [info|]; [|reflexivity].
      unfold after; cbn [trace]. unfold refetches.
        rewrite fetches_app.
        apply (validateAndDownload_no_refetch this (Some info) w).
    + rewrite refetched_count; [reflexivity|].
      intros o w'. apply validateAndDownload_no_refetch.
Qed.

(** C3, as the code has it.  [downloadCompiler] validates the session's
    version with [isVersionInRange] alone; the comparison with [latest]
    of lines 54-55 is made at construction only.  So for a session whose
    version is the manifest's [latest]: when [isVersionInRange] rejects
    it, [downloadCompiler] throws the version-range error and downloads
    no binary; when it accepts it, the binary download is made. *)
Theorem download_validates_by_range_only this w info :
  let run := downloadCompiler this w in
  ManifestAtDownload this w info ->
  _version this = latest info ->
  (isVersionInRange (latest info) info = false ->
     res run = Throw (ZkSyncSolcPluginError
                        (COMPILER_VERSION_RANGE_ERROR (latest info)
                           (minVersion info) (latest info)))
     /\ fetches Compiler (trace run) = O)
  /\ (isVersionInRange (latest info) info = true ->
     fetches Compiler (trace run) = 1%nat).
Proof.
  intros run Hm Hv. subst run.
  destruct (download_manifest this w info Hm)
    as (w1 & t1 & -> & Henv & _ & Ht1 & _).
  split; intros Hr; rewrite <- Hv in Hr.
  - rewrite (validate_out_of_range this info w1 Hr).
    unfold after; cbn [res trace]. rewrite fetches_app, Ht1, Hv.
    split; reflexivity.
  - unfold after; cbn [trace]. rewrite fetches_app, Ht1.
    destruct (net w1 (compilerUrl this)) as [body|msg] eqn:Hnet.
    + rewrite (validate_downloaded this info w1 body Hr Hnet).
      unfold after; cbn [trace].
      rewrite fetches_app, verifyCompiler_no_fetch. reflexivity.
    + rewrite (validate_transport_failure this info w1 msg Hr Hnet).
      reflexivity.
Qed.

(** C4. A version that [isVersionInRange] rejects is refused with the
    plugin error that [COMPILER_VERSION_RANGE_ERROR] builds from the
    version as requested and the [minVersion] and [latest] of the manifest
    in use: at construction for a request that is neither "latest" nor
    the manifest's [latest] string, and in [downloadCompiler] for the
    session's version. *)
Theorem out_of_range_version_rejected
    version configCompilerPath compilersDir w info this w' info' :
  let fresh :=
    new_ZksolcCompilerDownloader version configCompilerPath compilersDir
      (defaultCompilerVersionInfoCachePeriod w) in
  (_instance w = None ->
   ManifestAtConstruction fresh w info ->
   version <> "latest" ->
   version <> latest info ->
   isVersionInRange version info = false ->
   res (getDownloaderWithVersionValidated version configCompilerPath
          compilersDir w)
   = Throw (ZkSyncSolcPluginError
              (COMPILER_VERSION_RANGE_ERROR version
                 (minVersion info) (latest info))))
  /\ (ManifestAtDownload this w' info' ->
      isVersionInRange (_version this) info' = false ->
      res (downloadCompiler this w')
      = Throw (ZkSyncSolcPluginError
                 (COMPILER_VERSION_RANGE_ERROR (_version this)
                    (minVersion info') (latest info')))).
Proof.
  intros fresh. split.
  - apply construction_rejects_out_of_range.
  - intros Hm Hr.
    destruct (download_manifest this w' info' Hm) as (w1 & t1 & -> & _).
    rewrite (validate_out_of_range this info' w1 Hr). reflexivity.
Qed.

(** C7. With the binary already at its path, [downloadCompiler] still
    goes through every step: it starts with the manifest check; it
    validates the version, and throws the version-range error when
    [isVersionInRange] rejects it; otherwise it calls the download for
    the binary, and when that succeeds it sets the mode of the file to
    [0o755], runs it with [--version], and leaves the downloaded bytes at
    the path.  The verification decides the outcome of the call: the
    corruption error when the result of running the downloaded bytes is
    corrupted, a normal return when it is not. *)
Theorem download_not_skipped_for_present_binary this w f info :
  let run := downloadCompiler this w in
  let compilerPath := getCompilerPath this in
  fs w !! compilerPath = Some f ->
  ManifestAtDownload this w info ->
  hd_error (trace run) = Some (PathExists (_getCompilerVersionInfoPath this))
  /\ (isVersionInRange (_version this) info = false ->
      res run = Throw (ZkSyncSolcPluginError
                         (COMPILER_VERSION_RANGE_ERROR (_version this)
                            (minVersion info) (latest info))))
  /\ (isVersionInRange (_version this) info = true ->
      exists pre post,
        trace run =
          pre ++ Download Compiler (compilerUrl this) compilerPath :: post
        /\ fetches Compiler pre = O
        /\ forall body, net w (compilerUrl this) = Fetched body ->
             (exists post',
                post = Chmod compilerPath 493
                         :: SpawnSync compilerPath ["--version"] :: post')
             /\ fs (final run) !! compilerPath
                = Some (installedFile w body)
             /\ (Corrupted
                   (exec w (Some (installedFile w body)) ["--version"]) ->
                 res run = Throw (ZkSyncSolcPluginError
                                    COMPILER_BINARY_CORRUPTION_ERROR))
             /\ (~ Corrupted
                     (exec w (Some (installedFile w body)) ["--version"]) ->
                 res run = Ok tt)).
Proof.
  intros run compilerPath Hbin Hm. subst run compilerPath.
  destruct (download_manifest this w info Hm)
    as (w1 & t1 & -> & (Hnet1 & Hnow1 & _ & Hexec1 & _) & Hhd & Ht1 & _).
  split; [|split].
  - unfold after; cbn. destruct t1; [discriminate | exact Hhd].
  - intros Hr. rewrite (validate_out_of_range this info w1 Hr). reflexivity.
  - intros Hr. rewrite <- Hnet1.
    destruct (net w1 (compilerUrl this)) as [body|msg] eqn:Hnet.
    + rewrite (validate_downloaded this info w1 body Hr Hnet).
      assert (Hfile : installedFile w1 body = installedFile w body)
        by (unfold installedFile; rewrite Hnow1; reflexivity).
      assert (Hrun :
        exec (installed w1 (getCompilerPath this) body)
          (fs (installed w1 (getCompilerPath this) body)
             !! getCompilerPath this) ["--version"]
        = exec w (Some (installedFile w body)) ["--version"]).
      { rewrite installed_lookup, Hfile.
        change (exec (installed w1 (getCompilerPath this) body))
          with (exec w1).
        rewrite Hexec1. reflexivity. }
      exists t1,
        (Chmod (getCompilerPath this) 493
           :: trace (verifyCompiler this
                       (installed w1 (getCompilerPath this) body))).
      split; [reflexivity|]. split; [exact Ht1|].
      intros body' [= <-]. split; [|split; [|split]].
      * rewrite verifyCompiler_run. eexists. reflexivity.
      * unfold after; cbn [final].
        rewrite verifyCompiler_final, installed_lookup, Hfile. reflexivity.
      * intros Hc. rewrite <- Hrun in Hc.
        unfold after; cbn [res].
        rewrite (verifyCompiler_corrupted this _ Hc). reflexivity.
      * intros Hn. rewrite <- Hrun in Hn.
        unfold after; cbn [res].
        apply verifyCompiler_not_corrupted_ok, Hn.
    + rewrite (validate_transport_failure this info w1 msg Hr Hnet).
      eexists t1, _. split; [reflexivity|]. split; [exact Ht1|].
      intros body' [=].
Qed.

(** C8. When the download of the binary fails, [downloadCompiler] throws
    a plugin error whose message is the first line of the message of the
    transport's error: the text before its first newline, or all of it
    when it has none. *)
Theorem transport_error_cut_to_first_line this w info msg :
  ManifestAtDownload this w info ->
  isVersionInRange (_version this) info = true ->
  net w (compilerUrl this) = Failed msg ->
  exists line,
    res (downloadCompiler this w) = Throw (ZkSyncSolcPluginError line)
    /\ FirstLine msg line.
Proof.
  intros Hm Hr Hnet.
  destruct (download_manifest this w info Hm)
    as (w1 & t1 & -> & (Hnet1 & _) & _).
  rewrite <- Hnet1 in Hnet.
  rewrite (validate_transport_failure this info w1 msg Hr Hnet).
  exists (hd EmptyString (split newline msg)).
  split; [reflexivity | apply split_first_line].
Qed.

(** C10. When the manifest is there, the version is in range, the binary
    is downloaded and its mode set, and the verification finds the binary
    corrupted, [downloadCompiler] throws the corruption error and the
    downloaded bytes stay at the compiler path with mode [0o755]; nothing
    is removed. *)
Theorem corrupt_binary_left_on_disk this w info body :
  let run := downloadCompiler this w in
  ManifestAtDownload this w info ->
  isVersionInRange (_version this) info = true ->
  net w (compilerUrl this) = Fetched body ->
  Corrupted (exec w (Some (installedFile w body)) ["--version"]) ->
  res run = Throw (ZkSyncSolcPluginError COMPILER_BINARY_CORRUPTION_ERROR)
  /\ fs (final run) !! getCompilerPath this = Some (installedFile w body)
  /\ mode (installedFile w body) = 493
  /\ fetches Compiler (trace run) = 1%nat.
Proof.
  intros run Hm Hr Hnet Hc. subst run.
  destruct (download_manifest this w info Hm)
    as (w1 & t1 & -> & (Hnet1 & Hnow1 & _ & Hexec1 & _) & _ & Ht1 & _).
  rewrite <- Hnet1 in Hnet.
  rewrite (validate_downloaded this info w1 body Hr Hnet).
  assert (Hfile : installedFile w1 body = installedFile w body)
    by (unfold installedFile; rewrite Hnow1; reflexivity).
  rewrite verifyCompiler_corrupted.
  - unfold after; cbn [res final trace].
    rewrite installed_lookup, Hfile, !fetches_app, Ht1.
    repeat split.
  - rewrite installed_lookup, Hfile.
    change (exec (installed w1 (getCompilerPath this) body)) with (exec w1).
    rewrite Hexec1. exact Hc.
Qed.

End DownloadProperties.

(** ** The singleton *)

Section Singleton.
Context `{Imports}.
Implicit Types (this : ZksolcCompilerDownloader) (w : World).

Lemma existing_instance_returned version configCompilerPath compilersDir w this :
  _instance w = Some this ->
  getDownloaderWithVersionValidated version configCompilerPath compilersDir w
  = {| res := Ok this; final := w; trace := [] |}.
Proof.
  intros Hinst. unfold getDownloaderWithVersionValidated, bind, gets; cbn.
  rewrite Hinst. reflexivity.
Qed.

Lemma resolveVersion_keeps_instance version o :
  Keeps (fun w => is_Some (_instance w)) (resolveVersion version o).
Proof.
  destruct o as [info|]; [|apply keeps_throw].
  unfold resolveVersion. apply keeps_bind.
  - destruct (_ || _)%bool.
    + apply keeps_modify. intros w [this Hw]. cbn. rewrite Hw. eexists; reflexivity.
    + destruct (negb _); [apply keeps_throw | apply keeps_emit].
  - intros _. apply keeps_bind; [apply keeps_gets|].
    intros [this|]; [apply keeps_ret | apply keeps_throw].
Qed.

Lemma refetched_keeps_instance {B} this
    (k : option CompilerVersionInfo -> M B) pre :
  (forall o, Keeps (fun w => is_Some (_instance w)) (k o)) ->
  forall w, is_Some (_instance w) ->
            is_Some (_instance (final (refetched this k pre w))).
Proof.
  intros Hk w Hw. unfold refetched.
  destruct (net w versionInfoUrl) as [body|msg]; [|exact Hw].
  destruct (parseJSON body) as [info|]; [|exact Hw].
  unfold after; cbn [final]. apply Hk. exact Hw.
Qed.

(** Whatever the outcome of a call, the static holds a session after it:
    line 38 assigns it before anything can throw. *)
Lemma instance_set_after_call version configCompilerPath compilersDir w :
  is_Some (_instance
             (final (getDownloaderWithVersionValidated version
                       configCompilerPath compilersDir w))).
Proof.
  destruct (_instance w) as [this|] eqn:Hinst.
  - rewrite (existing_instance_returned _ _ _ w this Hinst). cbn.
    rewrite Hinst. eexists; reflexivity.
  - rewrite (construction_cases version configCompilerPath compilersDir w Hinst).
    set (this := new_ZksolcCompilerDownloader _ _ _ _).
    assert (Hw0 : is_Some (_instance (with_instance w (Some this))))
      by (eexists; reflexivity).
    destruct (fs w !! _getCompilerVersionInfoPath this) as [f|].
    + destruct (parseJSON (data f)) as [info|]; [|exact Hw0].
      destruct (_ >? _).
      * apply refetched_keeps_instance;
          [intros o; apply resolveVersion_keeps_instance | exact Hw0].
      * unfold after; cbn [final].
        apply resolveVersion_keeps_instance, Hw0.
    + apply refetched_keeps_instance;
        [intros o; apply resolveVersion_keeps_instance | exact Hw0].
Qed.

(** C9. After a first call, whatever its arguments and its outcome, the
    static holds a session, and any later call returns that session as it
    is, for any arguments and in any state of the files, the clock and
    the network: it reads nothing, fetches nothing, prints nothing,
    validates nothing and leaves the world as it found it. *)
Theorem later_calls_return_the_singleton
    version configCompilerPath compilersDir w
    version' configCompilerPath' compilersDir' w' :
  let first :=
    getDownloaderWithVersionValidated version configCompilerPath
      compilersDir w in
  let later := with_instance w' (_instance (final first)) in
  exists this,
    _instance (final first) = Some this
    /\ getDownloaderWithVersionValidated version' configCompilerPath'
         compilersDir' later
       = {| res := Ok this; final := later; trace := [] |}.
Proof.
  intros first later.
  destruct (instance_set_after_call version configCompilerPath compilersDir w)
    as [this Hthis].
  exists this. split; [exact Hthis|].
  apply existing_instance_returned. subst later first. cbn.
  exact Hthis.
Qed.

End Singleton.

(** ** The properties on the concrete environment *)

Section Examples.
Import Sample.

Lemma freshCache_at_construction version :
  ManifestAtConstruction (session version) freshCache
    (manifest "1.3.13" "1.3.0").
Proof.
  eapply cached_within_period; [reflexivity | reflexivity |].
  vm_compute. discriminate.
Qed.

Lemma freshCache_at_download version :
  ManifestAtDownload (session version) freshCache (manifest "1.3.13" "1.3.0").
Proof. eapply cached_at_download; reflexivity. Qed.

(** C1 on the example of the spec's section 8, asking for "latest". *)
Lemma latest_resolves_to_manifest_latest_witness :
  _instance freshCache = None
  /\ res (getDownloaderWithVersionValidated "latest" "" "/cache" freshCache)
     = Ok (session "1.3.13")
  /\ advisories
       (trace (getDownloaderWithVersionValidated "latest" "" "/cache"
                 freshCache)) = [].
Proof.
  destruct (latest_resolves_to_manifest_latest "latest" "" "/cache"
              freshCache (manifest "1.3.13" "1.3.0") eq_refl
              (freshCache_at_construction "latest") (or_introl eq_refl))
    as (Hres & _ & _ & Hadv).
  split; [reflexivity|]. split; [exact Hres | exact Hadv].
Defined.

(** C6 on the example of section 8: 1.3.5 with the window 1.3.0 to
    1.3.13. *)
Lemma pinned_version_accepted_with_one_advisory_witness :
  _instance freshCache = None
  /\ isVersionInRange "1.3.5" (manifest "1.3.13" "1.3.0") = true
  /\ res (getDownloaderWithVersionValidated "1.3.5" "" "/cache" freshCache)
     = Ok (session "1.3.5")
  /\ advisories
       (trace (getDownloaderWithVersionValidated "1.3.5" "" "/cache"
                 freshCache))
     = ["The zksolc version 1.3.5 is not the latest, 1.3.13."].
Proof.
  assert (H1 : "1.3.5" <> "latest") by discriminate.
  assert (H2 : "1.3.5" <> latest (manifest "1.3.13" "1.3.0")) by discriminate.
  destruct (pinned_version_accepted_with_one_advisory "1.3.5" "" "/cache"
              freshCache (manifest "1.3.13" "1.3.0") eq_refl
              (freshCache_at_construction "1.3.5") H1 H2 eq_refl)
    as (Hres & _ & _ & Hadv).
  split; [reflexivity|]. split; [reflexivity|].
  split; [exact Hres | exact Hadv].
Defined.

(** C4 on 1.2.0, below the window 1.3.0 to 1.3.13. *)
Lemma out_of_range_version_rejected_witness :
  isVersionInRange "1.2.0" (manifest "1.3.13" "1.3.0") = false
  /\ res (getDownloaderWithVersionValidated "1.2.0" "" "/cache" freshCache)
     = Throw (ZkSyncSolcPluginError
                "The zksolc version 1.2.0 is not within 1.3.0 to 1.3.13.")
  /\ res (downloadCompiler (session "1.2.0") freshCache)
     = Throw (ZkSyncSolcPluginError
                "The zksolc version 1.2.0 is not within 1.3.0 to 1.3.13.").
Proof.
  assert (H1 : "1.2.0" <> "latest") by discriminate.
  assert (H2 : "1.2.0" <> latest (manifest "1.3.13" "1.3.0")) by discriminate.
  destruct (out_of_range_version_rejected "1.2.0" "" "/cache" freshCache
              (manifest "1.3.13" "1.3.0") (session "1.2.0") freshCache
              (manifest "1.3.13" "1.3.0")) as [Hc Hd].
  split; [reflexivity|]. split.
  - exact (Hc eq_refl (freshCache_at_construction "1.2.0") H1 H2 eq_refl).
  - exact (Hd (freshCache_at_download "1.2.0") eq_refl).
Defined.

(** C2, as claimed, fails: a cache file older than the period is not
    refetched by [downloadCompiler], and one that does not parse is not
    refetched by construction either. *)
Lemma stale_manifest_not_refetched :
  fs staleCache !! manifestPath = Some (manifestFile "1.3.13" "1.3.0" 1000)
  /\ now staleCache - ctimeMs (manifestFile "1.3.13" "1.3.0" 1000)
     > _compilerVersionInfoCachePeriodMs (session "1.3.5")
  /\ refetches (trace (downloadCompiler (session "1.3.5") staleCache)) = O
  /\ res (downloadCompiler (session "1.3.5") staleCache) = Ok tt
  /\ _instance brokenCache = None
  /\ refetches
       (trace (getDownloaderWithVersionValidated "1.3.5" "" "/cache"
                 brokenCache)) = O.
Proof. vm_compute. repeat split. Qed.

(** C2 as amended, on the stale cache file: construction fetches once,
    [downloadCompiler] does not fetch. *)
Lemma manifest_refetch_policy_witness :
  _instance staleCache = None
  /\ refetches
       (trace (getDownloaderWithVersionValidated "1.3.5" "" "/cache"
                 staleCache)) = 1%nat
  /\ refetches (trace (downloadCompiler (session "1.3.5") staleCache)) = O.
Proof.
  destruct (manifest_refetch_policy "1.3.5" "" "/cache" (session "1.3.5")
              staleCache) as [Hc Hd].
  split; [reflexivity|]. split; [exact (Hc eq_refl) | exact Hd].
Defined.

(** C3, as claimed, fails: construction accepts 1.3.13 as the latest of a
    manifest whose window is 1.4.0 to 1.3.13, and [downloadCompiler] on
    that session and that manifest throws the version-range error. *)
Lemma latest_rejected_before_download :
  res (getDownloaderWithVersionValidated "1.3.13" "" "/cache"
         inconsistentWindow) = Ok (session "1.3.13")
  /\ _version (session "1.3.13") = latest (manifest "1.3.13" "1.4.0")
  /\ res (downloadCompiler (session "1.3.13") inconsistentWindow)
     = Throw (ZkSyncSolcPluginError
                (COMPILER_VERSION_RANGE_ERROR "1.3.13" "1.4.0" "1.3.13")).
Proof. vm_compute. repeat split. Qed.

(** C3 as amended, on the same session and manifest. *)
Lemma download_validates_by_range_only_witness :
  _version (session "1.3.13") = latest (manifest "1.3.13" "1.4.0")
  /\ isVersionInRange "1.3.13" (manifest "1.3.13" "1.4.0") = false
  /\ res (downloadCompiler (session "1.3.13") inconsistentWindow)
     = Throw (ZkSyncSolcPluginError
                "The zksolc version 1.3.13 is not within 1.4.0 to 1.3.13.")
  /\ fetches Compiler
       (trace (downloadCompiler (session "1.3.13") inconsistentWindow)) = O.
Proof.
  assert (Hm : ManifestAtDownload (session "1.3.13") inconsistentWindow
                 (manifest "1.3.13" "1.4.0"))
    by (eapply cached_at_download; reflexivity).
  destruct (download_validates_by_range_only (session "1.3.13")
              inconsistentWindow (manifest "1.3.13" "1.4.0") Hm eq_refl)
    as [Hreject _].
  destruct (Hreject eq_refl) as [Hres Hnone].
  split; [reflexivity|]. split; [reflexivity|].
  split; [exact Hres | exact Hnone].
Defined.

(** C5 on the example of section 8: the binary prints
    "zksolc version 1.3.13" and the session's version is 1.3.0. *)
Lemma verifyCompiler_classification_witness :
  status (exec mislabelled
            (fs mislabelled !! getCompilerPath (session "1.3.0"))
            ["--version"]) = Some 0
  /\ FirstVersion "zksolc version 1.3.13" "1.3.13"
  /\ res (verifyCompiler (session "1.3.0") mislabelled) = Ok tt
  /\ advisories (trace (verifyCompiler (session "1.3.0") mislabelled))
     = ["zksolc compiler version mismatch: expected 1.3.0, got 1.3.13"].
Proof.
  assert (Hv : FirstVersion "zksolc version 1.3.13" "1.3.13")
    by (apply regexMatch_spec; reflexivity).
  assert (Hne : "1.3.13" <> _version (session "1.3.0")) by discriminate.
  destruct (verifyCompiler_classification (session "1.3.0") mislabelled)
    as (_ & Hmismatch & _).
  destruct (Hmismatch "zksolc version 1.3.13" "1.3.13" eq_refl eq_refl Hv Hne)
    as [Hres Hadv].
  split; [reflexivity|]. split; [exact Hv|].
  split; [exact Hres | exact Hadv].
Defined.

Lemma alreadyDownloaded_release_verifies :
  ~ Corrupted
      (exec alreadyDownloaded
         (Some (installedFile alreadyDownloaded (zksolc "1.3.5")))
         ["--version"]).
Proof.
  intros [Hstatus | Hnone].
  - apply Hstatus. reflexivity.
  - apply Hnone. exists "zksolc version 1.3.5". split; [reflexivity|].
    apply regexMatch_contains_inv with (m := "1.3.5"). reflexivity.
Qed.

(** C7 on a world where the binary of 1.3.5 is already in place. *)
Lemma download_not_skipped_for_present_binary_witness :
  is_Some (fs alreadyDownloaded !! getCompilerPath (session "1.3.5"))
  /\ hd_error (trace (downloadCompiler (session "1.3.5") alreadyDownloaded))
     = Some (PathExists manifestPath)
  /\ (exists pre post,
       trace (downloadCompiler (session "1.3.5") alreadyDownloaded)
       = pre ++ Download Compiler (binaryUrl "1.3.5") (binaryPath "1.3.5")
                  :: post
       /\ fetches Compiler pre = O)
  /\ res (downloadCompiler (session "1.3.5") alreadyDownloaded) = Ok tt.
Proof.
  assert (Hbin : fs alreadyDownloaded !! getCompilerPath (session "1.3.5")
                 = Some {| ctimeMs := 1500; mode := 493;
                           data := zksolc "1.3.5" |})
    by (vm_compute; reflexivity).
  assert (Hm : ManifestAtDownload (session "1.3.5") alreadyDownloaded
                 (manifest "1.3.13" "1.3.0"))
    by (eapply cached_at_download; vm_compute; reflexivity).
  assert (Hnet : net alreadyDownloaded (compilerUrl (session "1.3.5"))
                 = Fetched (zksolc "1.3.5"))
    by (vm_compute; reflexivity).
  destruct (download_not_skipped_for_present_binary (session "1.3.5")
              alreadyDownloaded _ (manifest "1.3.13" "1.3.0") Hbin Hm)
    as (Hhd & _ & Hseq).
  destruct (Hseq eq_refl) as (pre & post & Htrace & Hpre & Hfetched).
  destruct (Hfetched (zksolc "1.3.5") Hnet) as (_ & _ & _ & Hverified).
  split; [eexists; reflexivity|]. split; [exact Hhd|].
  split; [exists pre, post; split; [exact Htrace | exact Hpre]|].
  exact (Hverified alreadyDownloaded_release_verifies).
Defined.

(** C8 on a transport error of two lines. *)
Lemma transport_error_cut_to_first_line_witness :
  net freshCache (compilerUrl (session "1.3.5")) = Failed notFound
  /\ exists line,
       res (downloadCompiler (session "1.3.5") freshCache)
       = Throw (ZkSyncSolcPluginError line)
       /\ FirstLine notFound line.
Proof.
  split; [reflexivity|].
  exact (transport_error_cut_to_first_line (session "1.3.5") freshCache
           (manifest "1.3.13" "1.3.0") notFound
           (freshCache_at_download "1.3.5") eq_refl eq_refl).
Defined.

(** C10 on a release that is not a program. *)
Lemma corrupt_binary_left_on_disk_witness :
  net corruptRelease (compilerUrl (session "1.3.5")) = Fetched "<html>"
  /\ res (downloadCompiler (session "1.3.5") corruptRelease)
     = Throw (ZkSyncSolcPluginError "The zksolc binary is corrupted.")
  /\ fs (final (downloadCompiler (session "1.3.5") corruptRelease))
       !! binaryPath "1.3.5"
     = Some {| ctimeMs := 2000; mode := 493; data := "<html>" |}.
Proof.
  assert (Hm : ManifestAtDownload (session "1.3.5") corruptRelease
                 (manifest "1.3.13" "1.3.0"))
    by (eapply cached_at_download; reflexivity).
  assert (Hc : Corrupted (exec corruptRelease
                            (Some (installedFile corruptRelease "<html>"))
                            ["--version"]))
    by (left; vm_compute; discriminate).
  destruct (corrupt_binary_left_on_disk (session "1.3.5") corruptRelease
              (manifest "1.3.13" "1.3.0") "<html>" Hm eq_refl eq_refl Hc)
    as (Hres & Hfile & _).
  split; [reflexivity|]. split; [exact Hres | exact Hfile].
Defined.

(** The examples of section 8 for the verification. *)
Example verifyCompiler_agreeing_version :
  let w := final (downloadCompiler (session "1.3.5") alreadyDownloaded) in
  verifyCompiler (session "1.3.5") w
  = {| res := Ok tt; final := w;
       trace := [SpawnSync (binaryPath "1.3.5") ["--version"]] |}.
Proof. reflexivity. Qed.

Example verifyCompiler_missing_binary :
  res (verifyCompiler (session "1.3.5") freshCache)
  = Throw (ZkSyncSolcPluginError "The zksolc binary is corrupted.").
Proof. reflexivity. Qed.

(** C9 on a second call that asks for a version outside the window. *)
Example second_call_is_not_validated :
  let first := getDownloaderWithVersionValidated "1.3.5" "" "/cache" freshCache in
  res first = Ok (session "1.3.5")
  /\ getDownloaderWithVersionValidated "9.9.9" "https://example.org/zksolc"
       "/elsewhere" (final first)
     = {| res := Ok (session "1.3.5"); final := final first; trace := [] |}.
Proof. split; reflexivity. Qed.

End Examples.

(** ** What a run leaves behind *)

(** The steps that install a binary: its download, the change of its
    mode, and its execution. *)
Definition isInstallStep (e : event) : bool :=
  match e with
  | Download Compiler _ _ | Chmod _ _ | SpawnSync _ _ => true
  | _ => false
  end.

(** The file systems agree outside the paths [ps]. *)
Definition AgreeOutside (ps : list string) (m m' : gmap string File) : Prop :=
  forall p, p ∉ ps -> m' !! p = m !! p.

Section Leaves.
Context `{Imports}.
Implicit Types (this : ZksolcCompilerDownloader) (w : World).

Lemma agree_refl ps (m : gmap string File) : AgreeOutside ps m m.
Proof. intros p _. reflexivity. Qed.

Lemma agree_trans ps (m1 m2 m3 : gmap string File) :
  AgreeOutside ps m1 m2 -> AgreeOutside ps m2 m3 -> AgreeOutside ps m1 m3.
Proof. intros H12 H23 p Hp. rewrite (H23 p Hp). apply H12, Hp. Qed.

Lemma agree_insert ps (m : gmap string File) p f :
  p ∈ ps -> AgreeOutside ps m (<[p := f]> m).
Proof.
  intros Hin q Hq. apply lookup_insert_ne. intros ->. exact (Hq Hin).
Qed.

Lemma agree_written ps w p body :
  p ∈ ps -> AgreeOutside ps (fs w) (fs (written w p body)).
Proof. intros Hin. unfold written; cbn. apply agree_insert, Hin. Qed.

Lemma agree_installed ps w p body :
  p ∈ ps -> AgreeOutside ps (fs w) (fs (installed w p body)).
Proof.
  intros Hin. unfold installed; cbn.
  eapply agree_trans; apply agree_insert, Hin.
Qed.

Lemma verifyCompiler_install_steps this w :
  List.filter isInstallStep (trace (verifyCompiler this w))
  = [SpawnSync (getCompilerPath this) ["--version"]].
Proof.
  rewrite verifyCompiler_run. unfold after; cbn [trace].
  destruct (status _) as [[|p|p]|]; try reflexivity.
  destruct (_ ≫= _); [|reflexivity].
  destruct (negb _); reflexivity.
Qed.

Lemma resolveVersion_fs version o w :
  fs (final (resolveVersion version o w)) = fs w.
Proof.
  destruct o as [info|]; [|reflexivity].
  unfold resolveVersion, bind, modify, gets, console_info, emit, throw.
  destruct (_ || _)%bool; cbn.
  - destruct (_instance w); reflexivity.
  - destruct (negb _); cbn; [reflexivity|].
    destruct (_instance w); reflexivity.
Qed.

Lemma resolveVersion_no_install version o w :
  List.filter isInstallStep (trace (resolveVersion version o w)) = [].
Proof.
  destruct o as [info|]; [|reflexivity].
  unfold resolveVersion, bind, modify, gets, console_info, emit, throw.
  destruct (_ || _)%bool; cbn.
  - destruct (_instance w); reflexivity.
  - destruct (negb _); cbn; [reflexivity|].
    destruct (_instance w); reflexivity.
Qed.

Lemma resolveVersion_throw_instance version o w e :
  res (resolveVersion version o w) = Throw e ->
  _instance (final (resolveVersion version o w)) = _instance w.
Proof.
  destruct o as [info|]; [|reflexivity].
  unfold resolveVersion, bind, modify, gets, console_info, emit, throw.
  destruct (_ || _)%bool; cbn.
  - destruct (_instance w); cbn; [discriminate | reflexivity].
  - destruct (negb _); cbn; [reflexivity|].
    destruct (_instance w) eqn:Hi; cbn; [discriminate | intros _; exact Hi].
Qed.

(** What a successful resolution returns. *)
Lemma resolveVersion_ok_inv version o w this s :
  _instance w = Some this ->
  res (resolveVersion version o w) = Ok s ->
  _instance (final (resolveVersion version o w)) = Some s
  /\ exists info,
       o = Some info
       /\ (((version = "latest" \/ version = latest info)
            /\ s = set_version this (latest info))
           \/ (version <> "latest" /\ version <> latest info
               /\ isVersionInRange version info = true /\ s = this)).
Proof.
  intros Hinst. destruct o as [info|]; [|discriminate].
  destruct (String.eqb_spec version "latest") as [Hl|Hl].
  - rewrite (resolveVersion_latest version info w this Hinst (or_introl Hl)).
    intros [= <-]. split; [reflexivity|]. exists info. split; [reflexivity|].
    left. split; [left; exact Hl | reflexivity].
  - destruct (String.eqb_spec version (latest info)) as [He|He].
    + rewrite (resolveVersion_latest version info w this Hinst (or_intror He)).
      intros [= <-]. split; [reflexivity|]. exists info.
      split; [reflexivity|]. left. split; [right; exact He | reflexivity].
    + destruct (isVersionInRange version info) eqn:Hr.
      * rewrite (resolveVersion_in_range version info w this Hinst Hl He Hr).
        intros [= <-]. split; [exact Hinst|]. exists info.
        split; [reflexivity|]. right. repeat split; assumption.
      * rewrite (resolveVersion_out_of_range version info w Hl He Hr).
        discriminate.
Qed.

(** Where [validateAndDownload] can end. *)
Lemma validateAndDownload_final this o w :
  final (validateAndDownload this o w) = w
  \/ exists body,
       net w (compilerUrl this) = Fetched body
       /\ final (validateAndDownload this o w)
          = installed w (getCompilerPath this) body.
Proof.
  destruct o as [info|]; [|left; reflexivity].
  destruct (isVersionInRange (_version this) info) eqn:Hr;
    [|left; rewrite (validate_out_of_range this info w Hr); reflexivity].
  destruct (net w (compilerUrl this)) as [body|msg] eqn:Hnet.
  - right. exists body. split; [reflexivity|].
    rewrite (validate_downloaded this info w body Hr Hnet).
    unfold after; cbn [final]. apply verifyCompiler_final.
  - left. rewrite (validate_transport_failure this info w msg Hr Hnet).
    reflexivity.
Qed.

(** What a successful [validateAndDownload] went through. *)
Lemma validateAndDownload_ok_inv this o w :
  res (validateAndDownload this o w) = Ok tt ->
  exists info body,
    o = Some info
    /\ isVersionInRange (_version this) info = true
    /\ net w (compilerUrl this) = Fetched body
    /\ final (validateAndDownload this o w)
       = installed w (getCompilerPath this) body
    /\ ~ Corrupted (exec w (Some (installedFile w body)) ["--version"]).
Proof.
  destruct o as [info|]; [|discriminate].
  destruct (isVersionInRange (_version this) info) eqn:Hr;
    [|rewrite (validate_out_of_range this info w Hr); discriminate].
  destruct (net w (compilerUrl this)) as [body|msg] eqn:Hnet;
    [|rewrite (validate_transport_failure this info w msg Hr Hnet);
      discriminate].
  rewrite (validate_downloaded this info w body Hr Hnet).
  unfold after; cbn [res final]. intros Hok.
  exists info, body.
  split; [reflexivity|]. split; [exact Hr|]. split; [reflexivity|].
  split; [apply verifyCompiler_final|].
  apply verifyCompiler_ok_not_corrupted in Hok.
  rewrite installed_lookup in Hok. exact Hok.
Qed.

(** The manifest phase of [downloadCompiler], with the state it leaves:
    the manifest is on disk afterwards and only its path was written. *)
Lemma download_manifest_state this w info :
  ManifestAtDownload this w info ->
  exists w1 t1,
    downloadCompiler this w = after t1 (validateAndDownload this (Some info) w1)
    /\ SameEnvironment w w1
    /\ (exists f, fs w1 !! _getCompilerVersionInfoPath this = Some f
                  /\ parseJSON (data f) = Some info)
    /\ AgreeOutside [_getCompilerVersionInfoPath this] (fs w) (fs w1)
    /\ List.filter isInstallStep t1 = []
    /\ (refetches t1 <= 1)%nat.
Proof.
  intros Hm. rewrite downloadCompiler_cases.
  destruct Hm as [f info Hfs Hparse | body info Hfs Hnet Hbody].
  - rewrite Hfs, Hparse. eexists w, _. split; [reflexivity|].
    split; [repeat split|]. split; [exists f; split; assumption|].
    split; [apply agree_refl|]. split; [reflexivity | cbn; lia].
  - rewrite Hfs. unfold refetched. rewrite Hnet, Hbody.
    eexists (written w _ body), _. split; [reflexivity|].
    split; [repeat split|].
    split; [eexists; split; [apply written_lookup | exact Hbody]|].
    split; [apply agree_written; set_solver|].
    split; [reflexivity | cbn; lia].
Qed.

(** A successful [downloadCompiler] had a manifest, a version in range, a
    binary to fetch and a binary that verifies. *)
Lemma downloadCompiler_ok_inv this w :
  res (downloadCompiler this w) = Ok tt ->
  exists info body,
    ManifestAtDownload this w info
    /\ isVersionInRange (_version this) info = true
    /\ net w (compilerUrl this) = Fetched body
    /\ ~ Corrupted (exec w (Some (installedFile w body)) ["--version"]).
Proof.
  rewrite downloadCompiler_cases.
  destruct (fs w !! _getCompilerVersionInfoPath this) as [f|] eqn:Hfs.
  - destruct (parseJSON (data f)) as [info|] eqn:Hparse; [|discriminate].
    unfold after; cbn [res]. intros Hok.
    destruct (validateAndDownload_ok_inv this _ w Hok)
      as (info' & body & [= <-] & Hr & Hnet & _ & Hc).
    exists info, body. repeat split; try assumption.
    eapply cached_at_download; eassumption.
  - unfold refetched.
    destruct (net w versionInfoUrl) as [body0|msg] eqn:Hnet0; [|discriminate].
    destruct (parseJSON body0) as [info|] eqn:Hbody0; [|discriminate].
    unfold after; cbn [res]. intros Hok.
    destruct (validateAndDownload_ok_inv this _ _ Hok)
      as (info' & body & [= <-] & Hr & Hnet & _ & Hc).
    exists info, body. repeat split; try assumption.
    eapply fetched_at_download; eassumption.
Qed.

End Leaves.

(** ** Further properties of the two operations *)

Section Further.
Context `{Imports}.
Implicit Types (this : ZksolcCompilerDownloader) (w : World).

Lemma same_environment_refl w : SameEnvironment w w.
Proof. repeat split. Qed.

Lemma same_environment_installed w p body :
  SameEnvironment w (installed w p body).
Proof. repeat split. Qed.

Lemma same_environment_trans w1 w2 w3 :
  SameEnvironment w1 w2 -> SameEnvironment w2 w3 -> SameEnvironment w1 w3.
Proof.
  intros (A1 & A2 & A3 & A4 & A5) (B1 & B2 & B3 & B4 & B5).
  repeat split; congruence.
Qed.

Lemma installedFile_same_clock w w1 body :
  now w1 = now w -> installedFile w1 body = installedFile w body.
Proof. intros Hnow. unfold installedFile. rewrite Hnow. reflexivity. Qed.

Lemma filter_install_app t1 t2 :
  List.filter isInstallStep (t1 ++ t2)
  = (List.filter isInstallStep t1 ++ List.filter isInstallStep t2)%list.
Proof. apply List.filter_app. Qed.

(** The run of [downloadCompiler] when every step up to the verification
    succeeds. *)
Lemma download_run this w info body :
  ManifestAtDownload this w info ->
  isVersionInRange (_version this) info = true ->
  net w (compilerUrl this) = Fetched body ->
  exists w1 t1,
    downloadCompiler this w
    = after t1
        (after [Download Compiler (compilerUrl this) (getCompilerPath this);
                Chmod (getCompilerPath this) 493]
           (verifyCompiler this (installed w1 (getCompilerPath this) body)))
    /\ SameEnvironment w w1
    /\ (exists f, fs w1 !! _getCompilerVersionInfoPath this = Some f
                  /\ parseJSON (data f) = Some info)
    /\ AgreeOutside [_getCompilerVersionInfoPath this] (fs w) (fs w1)
    /\ List.filter isInstallStep t1 = []
    /\ (refetches t1 <= 1)%nat.
Proof.
  intros Hm Hr Hnet.
  destruct (download_manifest_state this w info Hm)
    as (w1 & t1 & Heq & Henv & Hdisk & Hagree & Hsteps & Hre).
  exists w1, t1. rewrite Heq.
  destruct Henv as (Hnet1 & Henv).
  rewrite <- Hnet1 in Hnet.
  rewrite (validate_downloaded this info w1 body Hr Hnet).
  repeat split; try assumption; apply Henv.
Qed.

Lemma isCompilerDownloaded_present this w f :
  fs w !! getCompilerPath this = Some f ->
  isCompilerDownloaded this w
  = {| res := Ok true; final := w;
       trace := [PathExists (getCompilerPath this)] |}.
Proof.
  intros Hfs. unfold isCompilerDownloaded. rewrite pathExists_run, Hfs.
  reflexivity.
Qed.

(** X1. When [downloadCompiler] returns normally, the bytes that the
    network serves at the compiler's URL are at the compiler path with
    mode [0o755], they pass the verification, and the run downloaded the
    binary once, changed its mode once and ran it once, in that order. *)
Theorem successful_download_installs_binary this w :
  let run := downloadCompiler this w in
  res run = Ok tt ->
  exists body,
    net w (compilerUrl this) = Fetched body
    /\ fs (final run) !! getCompilerPath this = Some (installedFile w body)
    /\ mode (installedFile w body) = 493
    /\ ~ Corrupted (exec w (Some (installedFile w body)) ["--version"])
    /\ List.filter isInstallStep (trace run)
       = [Download Compiler (compilerUrl this) (getCompilerPath this);
          Chmod (getCompilerPath this) 493;
          SpawnSync (getCompilerPath this) ["--version"]].
Proof.
  intros run Hok. subst run.
  destruct (downloadCompiler_ok_inv this w Hok)
    as (info & body & Hm & Hr & Hnet & Hc).
  destruct (download_run this w info body Hm Hr Hnet)
    as (w1 & t1 & -> & (_ & Hnow & _) & _ & _ & Hsteps & _).
  exists body. split; [exact Hnet|].
  unfold after; cbn [final trace].
  rewrite verifyCompiler_final, installed_lookup,
    (installedFile_same_clock w w1 body Hnow).
  split; [reflexivity|]. split; [reflexivity|]. split; [exact Hc|].
  rewrite !filter_install_app, Hsteps, verifyCompiler_install_steps.
  reflexivity.
Qed.

(** X2. After [downloadCompiler] has returned normally, the two public
    checks agree with it on the world it left: [isCompilerDownloaded]
    answers true and [verifyCompiler] returns normally, and neither
    changes the world. *)
Theorem checks_agree_after_download this w :
  let after_download := final (downloadCompiler this w) in
  res (downloadCompiler this w) = Ok tt ->
  res (isCompilerDownloaded this after_download) = Ok true
  /\ final (isCompilerDownloaded this after_download) = after_download
  /\ res (verifyCompiler this after_download) = Ok tt
  /\ final (verifyCompiler this after_download) = after_download.
Proof.
  intros w' Hok. subst w'.
  destruct (downloadCompiler_ok_inv this w Hok)
    as (info & body & Hm & Hr & Hnet & Hc).
  destruct (download_run this w info body Hm Hr Hnet)
    as (w1 & t1 & -> & (_ & Hnow & _ & Hexec & _) & _).
  unfold after; cbn [final]. rewrite verifyCompiler_final.
  rewrite (isCompilerDownloaded_present this _ _ (installed_lookup _ _ _)).
  split; [reflexivity|]. split; [reflexivity|].
  split; [|apply verifyCompiler_final].
  apply verifyCompiler_not_corrupted_ok.
  rewrite installed_lookup, (installedFile_same_clock w w1 body Hnow).
  change (exec (installed w1 (getCompilerPath this) body)) with (exec w1).
  rewrite Hexec. exact Hc.
Qed.

(** X3. A binary that was downloaded and then failed the verification
    still counts as downloaded: on the world that the failed
    [downloadCompiler] left, [isCompilerDownloaded] answers true, while
    [verifyCompiler] throws the corruption error again. *)
Theorem corrupt_binary_counts_as_downloaded this w info body :
  let after_download := final (downloadCompiler this w) in
  ManifestAtDownload this w info ->
  isVersionInRange (_version this) info = true ->
  net w (compilerUrl this) = Fetched body ->
  Corrupted (exec w (Some (installedFile w body)) ["--version"]) ->
  res (isCompilerDownloaded this after_download) = Ok true
  /\ res (verifyCompiler this after_download)
     = Throw (ZkSyncSolcPluginError COMPILER_BINARY_CORRUPTION_ERROR).
Proof.
  intros w' Hm Hr Hnet Hc. subst w'.
  destruct (download_run this w info body Hm Hr Hnet)
    as (w1 & t1 & -> & (_ & Hnow & _ & Hexec & _) & _).
  unfold after; cbn [final]. rewrite verifyCompiler_final.
  rewrite (isCompilerDownloaded_present this _ _ (installed_lookup _ _ _)).
  split; [reflexivity|].
  rewrite verifyCompiler_corrupted; [reflexivity|].
  rewrite installed_lookup, (installedFile_same_clock w w1 body Hnow).
  change (exec (installed w1 (getCompilerPath this) body)) with (exec w1).
  rewrite Hexec. exact Hc.
Qed.

(** X8. Calling [downloadCompiler] again after it has returned normally
    (same network and clock, compiler path different from the manifest
    path) returns normally again: it reads the cached manifest without
    fetching it, downloads the binary again, sets its mode and runs it,
    and leaves the same file at the compiler path. *)
Theorem download_twice this w :
  let first := downloadCompiler this w in
  let second := downloadCompiler this (final first) in
  res first = Ok tt ->
  getCompilerPath this <> _getCompilerVersionInfoPath this ->
  res second = Ok tt
  /\ refetches (trace second) = O
  /\ List.filter isInstallStep (trace second)
     = [Download Compiler (compilerUrl this) (getCompilerPath this);
        Chmod (getCompilerPath this) 493;
        SpawnSync (getCompilerPath this) ["--version"]]
  /\ fs (final second) !! getCompilerPath this
     = fs (final first) !! getCompilerPath this.
Proof.
  intros first second Hok Hpaths. subst first second.
  destruct (downloadCompiler_ok_inv this w Hok)
    as (info & body & Hm & Hr & Hnet & Hc).
  destruct (download_run this w info body Hm Hr Hnet)
    as (w1 & t1 & -> & (Hnet1 & Hnow & _ & Hexec & _)
        & (f & Hf & Hparse) & _).
  unfold after; cbn [final]. rewrite verifyCompiler_final.
  set (w2 := installed w1 (getCompilerPath this) body).
  assert (Hf2 : fs w2 !! _getCompilerVersionInfoPath this = Some f).
  { subst w2. unfold installed, written; cbn.
    rewrite !lookup_insert_ne by exact Hpaths. exact Hf. }
  assert (Hnet2 : net w2 (compilerUrl this) = Fetched body)
    by (subst w2; cbn; rewrite Hnet1; exact Hnet).
  rewrite downloadCompiler_cases, Hf2, Hparse.
  rewrite (validate_downloaded this info w2 body Hr Hnet2).
  unfold after; cbn [res final trace].
  rewrite verifyCompiler_final, !installed_lookup.
  assert (Hfile : installedFile w2 body = installedFile w body).
  { apply installedFile_same_clock. subst w2. cbn. exact Hnow. }
  split; [|split; [|split]].
  - apply verifyCompiler_not_corrupted_ok.
    rewrite installed_lookup, Hfile.
    change (exec (installed w2 (getCompilerPath this) body)) with (exec w1).
    rewrite Hexec. exact Hc.
  - unfold refetches. rewrite !fetches_app, verifyCompiler_no_fetch.
    reflexivity.
  - rewrite !filter_install_app, verifyCompiler_install_steps. reflexivity.
  - rewrite Hfile. subst w2. rewrite installed_lookup.
    f_equal. symmetry. apply installedFile_same_clock, Hnow.
Qed.

(** X11. When the download of the binary fails, nothing of the binary
    is installed: after the call of the download capability there is no
    change of mode and no execution, and every file except the manifest
    cache is as it was; so a binary that was at the compiler path stays
    as it was. *)
Theorem failed_binary_download_installs_nothing this w info msg :
  let run := downloadCompiler this w in
  ManifestAtDownload this w info ->
  isVersionInRange (_version this) info = true ->
  net w (compilerUrl this) = Failed msg ->
  List.filter isInstallStep (trace run)
  = [Download Compiler (compilerUrl this) (getCompilerPath this)]
  /\ AgreeOutside [_getCompilerVersionInfoPath this] (fs w) (fs (final run))
  /\ (getCompilerPath this <> _getCompilerVersionInfoPath this ->
      fs (final run) !! getCompilerPath this
      = fs w !! getCompilerPath this).
Proof.
  intros run Hm Hr Hnet. subst run.
  destruct (download_manifest_state this w info Hm)
    as (w1 & t1 & -> & (Hnet1 & _) & _ & Hagree & Hsteps & _).
  rewrite <- Hnet1 in Hnet.
  rewrite (validate_transport_failure this info w1 msg Hr Hnet).
  unfold after; cbn [final trace].
  rewrite filter_install_app, Hsteps.
  split; [reflexivity|]. split; [exact Hagree|].
  intros Hpaths. apply Hagree. intros Hin.
  apply list_elem_of_singleton in Hin. exact (Hpaths Hin).
Qed.

End Further.

(** ** Further properties of session construction *)

Section FurtherConstruction.
Context `{Imports}.
Implicit Types (this : ZksolcCompilerDownloader) (w : World).

(** How far a run of lines 40-52 got: it threw with the static still
    holding the session of line 38, or it reached line 54 with a manifest
    that is on disk.  Either way only the manifest cache was written and
    nothing of a binary was touched. *)
Inductive ReachedResolution {A} this (k : option CompilerVersionInfo -> M A)
    w (o : Outcome A) : Prop :=
| threw_before e w1 t1 :
    o = {| res := Throw e; final := w1; trace := t1 |} ->
    _instance w1 = _instance w ->
    AgreeOutside [_getCompilerVersionInfoPath this] (fs w) (fs w1) ->
    List.filter isInstallStep t1 = [] ->
    ReachedResolution this k w o
| reached info w1 t1 f :
    o = after t1 (k (Some info) w1) ->
    _instance w1 = _instance w ->
    fs w1 !! _getCompilerVersionInfoPath this = Some f ->
    parseJSON (data f) = Some info ->
    AgreeOutside [_getCompilerVersionInfoPath this] (fs w) (fs w1) ->
    List.filter isInstallStep t1 = [] ->
    ReachedResolution this k w o.

Lemma mp_in_singleton this :
  _getCompilerVersionInfoPath this ∈ [_getCompilerVersionInfoPath this].
Proof. apply list_elem_of_singleton. reflexivity. Qed.

Lemma refetched_reached {A} this (k : option CompilerVersionInfo -> M A)
    pre w :
  List.filter isInstallStep pre = [] ->
  ReachedResolution this k w (refetched this k pre w).
Proof.
  intros Hpre. unfold refetched.
  destruct (net w versionInfoUrl) as [body|msg].
  - destruct (parseJSON body) as [info|] eqn:Hbody.
    + eapply reached; [reflexivity | reflexivity | apply written_lookup
                      | exact Hbody | apply agree_written, mp_in_singleton |].
      rewrite filter_install_app, Hpre. reflexivity.
    + eapply threw_before;
        [reflexivity | reflexivity | apply agree_written, mp_in_singleton |].
      rewrite filter_install_app, Hpre. reflexivity.
  - eapply threw_before; [reflexivity | reflexivity | apply agree_refl |].
    rewrite filter_install_app, Hpre. reflexivity.
Qed.

Lemma construction_reached version configCompilerPath compilersDir w :
  let this :=
    new_ZksolcCompilerDownloader version configCompilerPath compilersDir
      (defaultCompilerVersionInfoCachePeriod w) in
  _instance w = None ->
  ReachedResolution this (resolveVersion version)
    (with_instance w (Some this))
    (getDownloaderWithVersionValidated version configCompilerPath
       compilersDir w).
Proof.
  intros this Hinst.
  rewrite (construction_cases version configCompilerPath compilersDir w Hinst).
  fold this.
  destruct (fs w !! _getCompilerVersionInfoPath this) as [f|] eqn:Hfs.
  - destruct (parseJSON (data f)) as [info|] eqn:Hparse.
    + destruct (_ >? _).
      * apply refetched_reached. reflexivity.
      * eapply reached;
          [reflexivity | reflexivity | exact Hfs | exact Hparse
          | apply agree_refl | reflexivity].
    + eapply threw_before;
        [reflexivity | reflexivity | apply agree_refl | reflexivity].
  - apply refetched_reached. reflexivity.
Qed.

(** X4. A first call that throws, for whatever reason, leaves in the
    static the session built at line 38 from the arguments as given:
    its version is the requested string, not validated and not resolved.
    Every later call returns that session without an error. *)
Theorem failed_first_call_keeps_unvalidated_session
    version configCompilerPath compilersDir w e
    version' configCompilerPath' compilersDir' :
  let this :=
    new_ZksolcCompilerDownloader version configCompilerPath compilersDir
      (defaultCompilerVersionInfoCachePeriod w) in
  let first :=
    getDownloaderWithVersionValidated version configCompilerPath
      compilersDir w in
  _instance w = None ->
  res first = Throw e ->
  _instance (final first) = Some this
  /\ _version this = version
  /\ getDownloaderWithVersionValidated version' configCompilerPath'
       compilersDir' (final first)
     = {| res := Ok this; final := final first; trace := [] |}.
Proof.
  intros this first Hinst Hthrow. subst first.
  assert (Hleft : _instance
                    (final (getDownloaderWithVersionValidated version
                              configCompilerPath compilersDir w))
                  = Some this).
  { destruct (construction_reached version configCompilerPath compilersDir
                w Hinst) as [e' w1 t1 Heq Hi _ _ | info w1 t1 f Heq Hi _ _ _ _];
      fold this in Heq, Hi; rewrite Heq in *.
    - exact Hi.
    - unfold after in *; cbn [res final] in *.
      rewrite (resolveVersion_throw_instance version _ w1 e Hthrow).
      exact Hi. }
  split; [exact Hleft|]. split; [reflexivity|].
  apply existing_instance_returned, Hleft.
Qed.

(** X5. When the first call returns a session, that session is the one
    the static holds; it has the configured path, the directory, the URL
    flag and the cache period of line 38; and its version is valid for the
    manifest that is in the cache file after the call: either the request
    was "latest" or that manifest's [latest] and the version is that
    [latest], or the version is the request and [isVersionInRange]
    accepts it. *)
Theorem first_call_returns_validated_session
    version configCompilerPath compilersDir w s :
  let this :=
    new_ZksolcCompilerDownloader version configCompilerPath compilersDir
      (defaultCompilerVersionInfoCachePeriod w) in
  let first :=
    getDownloaderWithVersionValidated version configCompilerPath
      compilersDir w in
  _instance w = None ->
  res first = Ok s ->
  _instance (final first) = Some s
  /\ _configCompilerPath s = configCompilerPath
  /\ _compilersDirectory s = compilersDir
  /\ _isCompilerPathURL s = isURL configCompilerPath
  /\ _compilerVersionInfoCachePeriodMs s
     = defaultCompilerVersionInfoCachePeriod w
  /\ exists f info,
       fs (final first) !! _getCompilerVersionInfoPath this = Some f
       /\ parseJSON (data f) = Some info
       /\ (((version = "latest" \/ version = latest info)
            /\ _version s = latest info)
           \/ (version <> "latest" /\ version <> latest info
               /\ isVersionInRange version info = true
               /\ _version s = version)).
Proof.
  intros this first Hinst Hok. subst first.
  destruct (construction_reached version configCompilerPath compilersDir
              w Hinst) as [e' w1 t1 Heq _ _ _ | info w1 t1 f Heq Hi Hf Hp _ _];
    fold this in Heq; rewrite Heq in *; [discriminate|].
  fold this in Hi, Hf. unfold after in *; cbn [res final] in *.
  destruct (resolveVersion_ok_inv version _ w1 this s Hi Hok)
    as (Hstatic & info' & [= <-] & Hcase).
  split; [exact Hstatic|].
  assert (Hfields : _configCompilerPath s = configCompilerPath
                    /\ _compilersDirectory s = compilersDir
                    /\ _isCompilerPathURL s = isURL configCompilerPath
                    /\ _compilerVersionInfoCachePeriodMs s
                       = defaultCompilerVersionInfoCachePeriod w)
    by (destruct Hcase as [[_ ->] | (_ & _ & _ & ->)]; repeat split).
  destruct Hfields as (F1 & F2 & F3 & F4).
  repeat (split; [assumption|]).
  exists f, info. rewrite resolveVersion_fs.
  split; [exact Hf|]. split; [exact Hp|].
  destruct Hcase as [[Hv ->] | (H1 & H2 & Hr & ->)].
  - left. split; [exact Hv | reflexivity].
  - right. repeat split; assumption.
Qed.

(** X6. A call of [getDownloaderWithVersionValidated], first or later,
    changes no file other than the manifest cache, downloads no binary,
    changes no mode and runs no process. *)
Theorem construction_touches_only_manifest
    version configCompilerPath compilersDir w :
  let this :=
    new_ZksolcCompilerDownloader version configCompilerPath compilersDir
      (defaultCompilerVersionInfoCachePeriod w) in
  let run :=
    getDownloaderWithVersionValidated version configCompilerPath
      compilersDir w in
  AgreeOutside [_getCompilerVersionInfoPath this] (fs w) (fs (final run))
  /\ List.filter isInstallStep (trace run) = [].
Proof.
  intros this run. subst run.
  destruct (_instance w) as [s|] eqn:Hinst.
  - rewrite (existing_instance_returned _ _ _ w s Hinst).
    split; [apply agree_refl | reflexivity].
  - destruct (construction_reached version configCompilerPath compilersDir
                w Hinst) as [e' w1 t1 Heq _ Ha Hs | info w1 t1 f Heq _ _ _ Ha Hs];
      fold this in Heq, Ha; rewrite Heq.
    + split; [exact Ha | exact Hs].
    + unfold after; cbn [final trace]. rewrite resolveVersion_fs.
      split; [exact Ha|].
      rewrite filter_install_app, Hs, resolveVersion_no_install.
      reflexivity.
Qed.

(** X10. When the manifest cannot be fetched, the transport's message is
    dropped and the plugin error [COMPILER_VERSION_INFO_FILE_DOWNLOAD_ERROR]
    is thrown, with the files as they were.  The first call does so when
    the cache file is absent and also when it is there, parses, and is
    older than the cache period; [downloadCompiler] does so when the file
    is absent. *)
Theorem manifest_fetch_failure
    version configCompilerPath compilersDir w msg this :
  let fresh :=
    new_ZksolcCompilerDownloader version configCompilerPath compilersDir
      (defaultCompilerVersionInfoCachePeriod w) in
  let first :=
    getDownloaderWithVersionValidated version configCompilerPath
      compilersDir w in
  net w versionInfoUrl = Failed msg ->
  (_instance w = None ->
   (fs w !! _getCompilerVersionInfoPath fresh = None
    \/ exists f old,
         fs w !! _getCompilerVersionInfoPath fresh = Some f
         /\ parseJSON (data f) = Some old
         /\ now w - ctimeMs f > defaultCompilerVersionInfoCachePeriod w) ->
   res first = Throw (ZkSyncSolcPluginError
                        COMPILER_VERSION_INFO_FILE_DOWNLOAD_ERROR)
   /\ fs (final first) = fs w
   /\ refetches (trace first) = 1%nat)
  /\ (fs w !! _getCompilerVersionInfoPath this = None ->
      res (downloadCompiler this w)
      = Throw (ZkSyncSolcPluginError
                 COMPILER_VERSION_INFO_FILE_DOWNLOAD_ERROR)
      /\ final (downloadCompiler this w) = w
      /\ refetches (trace (downloadCompiler this w)) = 1%nat).
Proof.
  intros fresh first Hnet. subst first. split.
  - intros Hinst Hcache.
    rewrite (construction_cases version configCompilerPath compilersDir
               w Hinst).
    fold fresh.
    destruct Hcache as [Hfs | (f & old & Hfs & Hparse & Hage)].
    + rewrite Hfs. unfold refetched.
      change (net (with_instance w (Some fresh))) with (net w).
      rewrite Hnet. repeat split.
    + rewrite Hfs, Hparse.
      change (_compilerVersionInfoCachePeriodMs fresh)
        with (defaultCompilerVersionInfoCachePeriod w).
      replace (now w - ctimeMs f >? defaultCompilerVersionInfoCachePeriod w)
        with true by (rewrite Z.gtb_ltb; symmetry; apply Z.ltb_lt; lia).
      unfold refetched.
      change (net (with_instance w (Some fresh))) with (net w).
      rewrite Hnet. repeat split.
  - intros Hfs. rewrite downloadCompiler_cases, Hfs. unfold refetched.
    rewrite Hnet. repeat split.
Qed.

End FurtherConstruction.

(** ** What [downloadCompiler] leaves alone, and the cache clock *)

(** The world [w] when the clock reads [t]: time passes between two
    operations, nothing else changes. *)
Definition at_time (w : World) (t : Z) : World :=
  {| fs := fs w; now := t; net := net w; exec := exec w;
     createMode := createMode w; _instance := _instance w;
     defaultCompilerVersionInfoCachePeriod :=
       defaultCompilerVersionInfoCachePeriod w |}.

Section Frame.
Context `{Imports}.
Implicit Types (this : ZksolcCompilerDownloader) (w : World).

Lemma validateAndDownload_frame this o w :
  AgreeOutside [_getCompilerVersionInfoPath this; getCompilerPath this]
    (fs w) (fs (final (validateAndDownload this o w)))
  /\ _instance (final (validateAndDownload this o w)) = _instance w.
Proof.
  destruct (validateAndDownload_final this o w) as [-> | (body & _ & ->)].
  - split; [apply agree_refl | reflexivity].
  - split; [|reflexivity].
    apply agree_installed. apply list_elem_of_further, list_elem_of_here.
Qed.

(** X7. Whatever its outcome, [downloadCompiler] changes no file other
    than the manifest cache and the binary at the compiler path, and it
    leaves the static session as it is: the version that construction
    resolved is never changed by a download. *)
Theorem downloadCompiler_frame this w :
  let run := downloadCompiler this w in
  AgreeOutside [_getCompilerVersionInfoPath this; getCompilerPath this]
    (fs w) (fs (final run))
  /\ _instance (final run) = _instance w.
Proof.
  intros run. subst run. rewrite downloadCompiler_cases.
  destruct (fs w !! _getCompilerVersionInfoPath this) as [f|].
  - destruct (parseJSON (data f)) as [info|];
      [|split; [apply agree_refl | reflexivity]].
    unfold after; cbn [final]. apply validateAndDownload_frame.
  - unfold refetched.
    destruct (net w versionInfoUrl) as [body|msg];
      [|split; [apply agree_refl | reflexivity]].
    assert (Hw : AgreeOutside
                   [_getCompilerVersionInfoPath this; getCompilerPath this]
                   (fs w)
                   (fs (written w (_getCompilerVersionInfoPath this) body)))
      by (apply agree_written, list_elem_of_here).
    destruct (parseJSON body) as [info|];
      [|split; [exact Hw | reflexivity]].
    unfold after; cbn [final].
    destruct (validateAndDownload_frame this (Some info)
                (written w (_getCompilerVersionInfoPath this) body))
      as [Ha Hi].
    split; [eapply agree_trans; eassumption | exact Hi].
Qed.

(** X9. Staleness counts from the fetch.  When
    [_downloadCompilerVersionInfo] has succeeded with the clock at [now w],
    which is the time it stamps on the cache file, a check made when the
    clock reads [later] answers true exactly when [later - now w] exceeds
    the cache period: false at the very time of the fetch for a period
    that is not negative, and true for a period of 0 as soon as the clock
    has moved.  [_getCompilerVersionInfo] reads what was fetched. *)
Theorem staleness_counts_from_the_fetch this w body info later :
  let fetched := at_time (final (_downloadCompilerVersionInfo this w)) later in
  net w versionInfoUrl = Fetched body ->
  parseJSON body = Some info ->
  res (_shouldDownloadCompilerVersionInfo this fetched)
  = Ok (later - now w >? _compilerVersionInfoCachePeriodMs this)
  /\ (res (_shouldDownloadCompilerVersionInfo this fetched) = Ok true
      <-> later - now w > _compilerVersionInfoCachePeriodMs this)
  /\ res (_getCompilerVersionInfo this fetched) = Ok (Some info).
Proof.
  intros fetched Hnet Hbody. subst fetched.
  unfold _downloadCompilerVersionInfo.
  fold versionInfoUrl.
  rewrite (download_fetched VersionInfo versionInfoUrl _ w body Hnet).
  cbn [final].
  assert (Hfile :
    fs (at_time (written w (_getCompilerVersionInfoPath this) body) later)
      !! _getCompilerVersionInfoPath this
    = Some {| ctimeMs := now w; mode := createMode w; data := body |})
    by apply written_lookup.
  rewrite (_shouldDownloadCompilerVersionInfo_present this _ _ Hfile).
  rewrite (_getCompilerVersionInfo_present this _ _ info Hfile Hbody).
  cbn [res ctimeMs now at_time].
  split; [reflexivity|]. split; [|reflexivity].
  split.
  - intros [= Hgt]. apply Z.gtb_lt in Hgt. lia.
  - intros Hgt. f_equal. apply Z.gtb_lt. lia.
Qed.

End Frame.

(** ** The version in the output of the binary *)

Fixpoint noDigits (s : string) : bool :=
  match s with
  | EmptyString => true
  | String c s' => (negb (isDigit c) && noDigits s')%bool
  end.

Section Output.
#[local] Arguments String.append !_ _ / : simpl nomatch.

Lemma matchAtStart_non_digit c s :
  isDigit c = false -> matchAtStart (String c s) = None.
Proof. intros Hc. unfold matchAtStart; cbn. rewrite Hc. reflexivity. Qed.

(** X12. When the output of the binary is some text without digits, then
    a version of three dotted numbers, then anything that does not start
    with a digit, the version that line 190 extracts is exactly that
    version. *)
Theorem version_found_after_plain_text pre m post :
  noDigits pre = true ->
  VersionText m ->
  startsWithDigit post = false ->
  regexMatch (pre +:+ (m +:+ post)) = Some m.
Proof.
  intros Hpre Hm Hpost. induction pre as [|c pre IH].
  - change (EmptyString +:+ (m +:+ post)) with (m +:+ post).
    rewrite regexMatch_unfold, (matchAtStart_complete m post Hm).
    rewrite (spanDigits_stop post Hpost). cbn [fst].
    rewrite append_empty_r. reflexivity.
  - simpl in Hpre. apply andb_true_iff in Hpre as [Hc Hpre].
    apply negb_true_iff in Hc.
    change (String c pre +:+ (m +:+ post))
      with (String c (pre +:+ (m +:+ post))).
    rewrite regexMatch_unfold, (matchAtStart_non_digit c _ Hc).
    exact (IH Hpre).
Qed.

End Output.

(** ** From construction to download *)

Section ConstructionThenDownload.
Context `{Imports}.
Implicit Types (this : ZksolcCompilerDownloader) (w : World).

Lemma validateAndDownload_attempts this info w :
  isVersionInRange (_version this) info = true ->
  fetches Compiler (trace (validateAndDownload this (Some info) w)) = 1%nat.
Proof.
  intros Hr.
  destruct (net w (compilerUrl this)) as [body|msg] eqn:Hnet.
  - rewrite (validate_downloaded this info w body Hr Hnet).
    unfold after; cbn [trace].
    rewrite fetches_app, verifyCompiler_no_fetch. reflexivity.
  - rewrite (validate_transport_failure this info w msg Hr Hnet).
    reflexivity.
Qed.

(** X13. Where the binary comes from and where it goes, for a session as
    the constructor builds it.  When the configured path is not a URL the
    binary is fetched from [getZksolcUrl(ZKSOLC_BIN_REPOSITORY, version)]
    into [<dir>/zksolc/zksolc-v<version>], with no salt.  When it is a
    URL the binary is fetched from exactly that URL, whatever the
    version, and the file name ends with a dash and the salt of the URL,
    or with nothing more when that salt is empty. *)
Theorem download_source_and_target
    version configCompilerPath compilersDir period w info :
  let this :=
    new_ZksolcCompilerDownloader version configCompilerPath compilersDir
      period in
  ManifestAtDownload this w info ->
  isVersionInRange version info = true ->
  hd_error (List.filter isInstallStep (trace (downloadCompiler this w)))
  = Some
      (if isURL configCompilerPath
       then Download Compiler configCompilerPath
              (path_join
                 [compilersDir; "zksolc";
                  "zksolc-v" +:+ version
                    +:+ (if String.eqb (saltFromUrl configCompilerPath) ""
                         then "" else "-")
                    +:+ saltFromUrl configCompilerPath])
       else Download Compiler (getZksolcUrl ZKSOLC_BIN_REPOSITORY version)
              (path_join
                 [compilersDir; "zksolc"; "zksolc-v" +:+ version])).
Proof.
  intros this Hm Hr.
  destruct (download_manifest_state this w info Hm)
    as (w1 & t1 & -> & _ & _ & _ & Hsteps & _).
  unfold after; cbn [trace]. rewrite filter_install_app, Hsteps.
  cbn [app].
  assert (Hhead : hd_error
                    (List.filter isInstallStep
                       (trace (validateAndDownload this (Some info) w1)))
                  = Some (Download Compiler (compilerUrl this)
                            (getCompilerPath this))).
  { destruct (net w1 (compilerUrl this)) as [body|msg] eqn:Hnet.
    - rewrite (validate_downloaded this info w1 body Hr Hnet). reflexivity.
    - rewrite (validate_transport_failure this info w1 msg Hr Hnet).
      reflexivity. }
  rewrite Hhead. f_equal.
  unfold compilerUrl, getCompilerPath, this; cbn.
  destruct (isURL configCompilerPath); [reflexivity|].
  cbn [negb].
  change (if String.eqb "" "" then "" else "-") with "".
  change ("" +:+ "") with "".
  rewrite (append_empty_r version). reflexivity.
Qed.

(** X14. Construction followed by a download.  On the world that a
    successful first call left, [downloadCompiler] on the returned session
    reads the manifest from the cache without fetching it, and it goes on
    to download the binary, except possibly when the request was "latest"
    or the manifest's [latest] and [isVersionInRange] rejects that
    [latest]: a pinned version that construction accepted is never
    refused by the download. *)
Theorem download_after_construction
    version configCompilerPath compilersDir w s :
  let first :=
    getDownloaderWithVersionValidated version configCompilerPath
      compilersDir w in
  let second := downloadCompiler s (final first) in
  _instance w = None ->
  res first = Ok s ->
  refetches (trace second) = O
  /\ (fetches Compiler (trace second) = 1%nat
      \/ exists info,
           (version = "latest" \/ version = latest info)
           /\ isVersionInRange (latest info) info = false
           /\ res second
              = Throw (ZkSyncSolcPluginError
                         (COMPILER_VERSION_RANGE_ERROR (latest info)
                            (minVersion info) (latest info)))).
Proof.
  intros first second Hinst Hok. subst first second.
  destruct (construction_reached version configCompilerPath compilersDir
              w Hinst) as [e' w1 t1 Heq _ _ _ | info w1 t1 f Heq Hi Hf Hp _ _];
    rewrite Heq in *; [discriminate|].
  unfold after in *; cbn [res final] in *.
  destruct (resolveVersion_ok_inv version _ w1 _ s Hi Hok)
    as (_ & info' & [= <-] & Hcase).
  set (wF := final (resolveVersion version (Some info) w1)).
  assert (HfF : fs wF !! _getCompilerVersionInfoPath s = Some f).
  { subst wF. rewrite resolveVersion_fs.
    destruct Hcase as [[_ ->] | (_ & _ & _ & ->)]; exact Hf. }
  rewrite downloadCompiler_cases, HfF, Hp.
  unfold after; cbn [res trace]. split.
  - unfold refetches. rewrite fetches_app.
    apply (validateAndDownload_no_refetch s (Some info) wF).
  - rewrite fetches_app. cbn [fetches Nat.add].
    destruct (isVersionInRange (_version s) info) eqn:Hr.
    + left. apply validateAndDownload_attempts, Hr.
    + right. destruct Hcase as [[Hv ->] | (_ & _ & Hr' & ->)].
      * exists info. split; [exact Hv|]. split; [exact Hr|].
        rewrite (validate_out_of_range _ info wF Hr). reflexivity.
      * cbn in Hr. congruence.
Qed.

End ConstructionThenDownload.

(** ** The further properties on the concrete environment *)

(** A cache file older than a day and no network. *)
Definition offlineStaleCache : World :=
  Sample.world
    [(Sample.manifestPath, Sample.manifestFile "1.3.13" "1.3.0" 1000)]
    [] 100000000.

Section FurtherExamples.
Import Sample.

Lemma alreadyDownloaded_succeeds :
  res (downloadCompiler (session "1.3.5") alreadyDownloaded) = Ok tt.
Proof. vm_compute. reflexivity. Qed.

Lemma version_1_3_13 : VersionText "1.3.13".
Proof.
  exists "1", "3", "13".
  repeat split; (discriminate || reflexivity).
Qed.

(** X1 on the world where 1.3.5 is published and works. *)
Lemma successful_download_installs_binary_witness :
  res (downloadCompiler (session "1.3.5") alreadyDownloaded) = Ok tt
  /\ exists body,
       net alreadyDownloaded (compilerUrl (session "1.3.5")) = Fetched body
       /\ fs (final (downloadCompiler (session "1.3.5") alreadyDownloaded))
            !! getCompilerPath (session "1.3.5")
          = Some (installedFile alreadyDownloaded body).
Proof.
  split; [exact alreadyDownloaded_succeeds|].
  destruct (successful_download_installs_binary (session "1.3.5")
              alreadyDownloaded alreadyDownloaded_succeeds)
    as (body & Hnet & Hfile & _).
  exists body. split; [exact Hnet | exact Hfile].
Defined.

(** X2 on the same world. *)
Lemma checks_agree_after_download_witness :
  res (downloadCompiler (session "1.3.5") alreadyDownloaded) = Ok tt
  /\ res (isCompilerDownloaded (session "1.3.5")
            (final (downloadCompiler (session "1.3.5") alreadyDownloaded)))
     = Ok true
  /\ res (verifyCompiler (session "1.3.5")
            (final (downloadCompiler (session "1.3.5") alreadyDownloaded)))
     = Ok tt.
Proof.
  split; [exact alreadyDownloaded_succeeds|].
  destruct (checks_agree_after_download (session "1.3.5") alreadyDownloaded
              alreadyDownloaded_succeeds) as (Hpresent & _ & Hverify & _).
  split; [exact Hpresent | exact Hverify].
Defined.

(** X3 on the release that is not a program. *)
Lemma corrupt_binary_counts_as_downloaded_witness :
  net corruptRelease (compilerUrl (session "1.3.5")) = Fetched "<html>"
  /\ res (isCompilerDownloaded (session "1.3.5")
            (final (downloadCompiler (session "1.3.5") corruptRelease)))
     = Ok true
  /\ res (verifyCompiler (session "1.3.5")
            (final (downloadCompiler (session "1.3.5") corruptRelease)))
     = Throw (ZkSyncSolcPluginError "The zksolc binary is corrupted.").
Proof.
  assert (Hm : ManifestAtDownload (session "1.3.5") corruptRelease
                 (manifest "1.3.13" "1.3.0"))
    by (eapply cached_at_download; reflexivity).
  assert (Hc : Corrupted (exec corruptRelease
                            (Some (installedFile corruptRelease "<html>"))
                            ["--version"]))
    by (left; vm_compute; discriminate).
  split; [reflexivity|].
  exact (corrupt_binary_counts_as_downloaded (session "1.3.5") corruptRelease
           (manifest "1.3.13" "1.3.0") "<html>" Hm eq_refl eq_refl Hc).
Defined.

(** X4 on a first call for 1.2.0, which is below the window, followed by
    a call for "latest". *)
Lemma failed_first_call_keeps_unvalidated_session_witness :
  res (getDownloaderWithVersionValidated "1.2.0" "" "/cache" freshCache)
  = Throw (ZkSyncSolcPluginError
             "The zksolc version 1.2.0 is not within 1.3.0 to 1.3.13.")
  /\ res (getDownloaderWithVersionValidated "latest" "" "/cache"
            (final (getDownloaderWithVersionValidated "1.2.0" "" "/cache"
                      freshCache)))
     = Ok (session "1.2.0").
Proof.
  assert (Hthrow :
    res (getDownloaderWithVersionValidated "1.2.0" "" "/cache" freshCache)
    = Throw (ZkSyncSolcPluginError
               "The zksolc version 1.2.0 is not within 1.3.0 to 1.3.13."))
    by (vm_compute; reflexivity).
  destruct (failed_first_call_keeps_unvalidated_session "1.2.0" "" "/cache"
              freshCache _ "latest" "" "/cache" eq_refl Hthrow)
    as (_ & _ & Hlater).
  split; [exact Hthrow|]. rewrite Hlater. reflexivity.
Defined.

(** X5 on the example of section 8. *)
Lemma first_call_returns_validated_session_witness :
  res (getDownloaderWithVersionValidated "1.3.5" "" "/cache" freshCache)
  = Ok (session "1.3.5")
  /\ _instance
       (final (getDownloaderWithVersionValidated "1.3.5" "" "/cache"
                 freshCache))
     = Some (session "1.3.5").
Proof.
  assert (Hok :
    res (getDownloaderWithVersionValidated "1.3.5" "" "/cache" freshCache)
    = Ok (session "1.3.5"))
    by (vm_compute; reflexivity).
  destruct (first_call_returns_validated_session "1.3.5" "" "/cache"
              freshCache (session "1.3.5") eq_refl Hok) as (Hstatic & _).
  split; [exact Hok | exact Hstatic].
Defined.

(** X8 on the world where 1.3.5 is published and works. *)
Lemma download_twice_witness :
  res (downloadCompiler (session "1.3.5") alreadyDownloaded) = Ok tt
  /\ getCompilerPath (session "1.3.5")
     <> _getCompilerVersionInfoPath (session "1.3.5")
  /\ res (downloadCompiler (session "1.3.5")
            (final (downloadCompiler (session "1.3.5") alreadyDownloaded)))
     = Ok tt
  /\ refetches
       (trace (downloadCompiler (session "1.3.5")
                 (final (downloadCompiler (session "1.3.5")
                           alreadyDownloaded)))) = O.
Proof.
  assert (Hpaths : getCompilerPath (session "1.3.5")
                   <> _getCompilerVersionInfoPath (session "1.3.5"))
    by (vm_compute; discriminate).
  destruct (download_twice (session "1.3.5") alreadyDownloaded
              alreadyDownloaded_succeeds Hpaths) as (Hok & Hre & _).
  split; [exact alreadyDownloaded_succeeds|]. split; [exact Hpaths|].
  split; [exact Hok | exact Hre].
Defined.

(** X9 on the stale cache: the newer manifest is fetched, and the check
    is made one millisecond after a day has passed. *)
Lemma staleness_counts_from_the_fetch_witness :
  net staleCache versionInfoUrl
  = Fetched (manifestJSON (manifest "1.3.14" "1.3.0"))
  /\ res (_shouldDownloadCompilerVersionInfo (session "1.3.5")
            (at_time (final (_downloadCompilerVersionInfo (session "1.3.5")
                               staleCache))
               (now staleCache + 86400001))) = Ok true
  /\ res (_getCompilerVersionInfo (session "1.3.5")
            (at_time (final (_downloadCompilerVersionInfo (session "1.3.5")
                               staleCache))
               (now staleCache + 86400001)))
     = Ok (Some (manifest "1.3.14" "1.3.0")).
Proof.
  assert (Hnet : net staleCache versionInfoUrl
                 = Fetched (manifestJSON (manifest "1.3.14" "1.3.0")))
    by (vm_compute; reflexivity).
  assert (Hbody : parseJSON (manifestJSON (manifest "1.3.14" "1.3.0"))
                  = Some (manifest "1.3.14" "1.3.0"))
    by (vm_compute; reflexivity).
  destruct (staleness_counts_from_the_fetch (session "1.3.5") staleCache
              (manifestJSON (manifest "1.3.14" "1.3.0"))
              (manifest "1.3.14" "1.3.0") (now staleCache + 86400001)
              Hnet Hbody) as (_ & [_ Hstale] & Hread).
  split; [exact Hnet|]. split; [|exact Hread].
  apply Hstale. vm_compute. reflexivity.
Defined.

(** X10 on a cache file that parses, is older than a day, and cannot be
    refreshed. *)
Lemma manifest_fetch_failure_witness :
  net offlineStaleCache versionInfoUrl = Failed notFound
  /\ parseJSON (data (manifestFile "1.3.13" "1.3.0" 1000))
     = Some (manifest "1.3.13" "1.3.0")
  /\ res (getDownloaderWithVersionValidated "1.3.5" "" "/cache"
            offlineStaleCache)
     = Throw (ZkSyncSolcPluginError
                "Could not download the compiler version information file.").
Proof.
  destruct (manifest_fetch_failure "1.3.5" "" "/cache" offlineStaleCache
              notFound (session "1.3.5") eq_refl) as [Hfirst _].
  assert (Hstale :
    fs offlineStaleCache !! _getCompilerVersionInfoPath (session "1.3.5")
    = None
    \/ exists f old,
         fs offlineStaleCache !! _getCompilerVersionInfoPath (session "1.3.5")
         = Some f
         /\ parseJSON (data f) = Some old
         /\ now offlineStaleCache - ctimeMs f
            > defaultCompilerVersionInfoCachePeriod offlineStaleCache).
  { right. exists (manifestFile "1.3.13" "1.3.0" 1000),
      (manifest "1.3.13" "1.3.0").
    split; [vm_compute; reflexivity|]. split; [vm_compute; reflexivity|].
    vm_compute. reflexivity. }
  destruct (Hfirst eq_refl Hstale) as (Hres & _).
  split; [reflexivity|]. split; [vm_compute; reflexivity | exact Hres].
Defined.

(** X11 on a binary in place and a release that cannot be fetched. *)
Lemma failed_binary_download_installs_nothing_witness :
  net freshCache (compilerUrl (session "1.3.5")) = Failed notFound
  /\ List.filter isInstallStep
       (trace (downloadCompiler (session "1.3.5") freshCache))
     = [Download Compiler (binaryUrl "1.3.5") (binaryPath "1.3.5")].
Proof.
  destruct (failed_binary_download_installs_nothing (session "1.3.5")
              freshCache (manifest "1.3.13" "1.3.0") notFound
              (freshCache_at_download "1.3.5") eq_refl eq_refl)
    as (Hsteps & _).
  split; [reflexivity | exact Hsteps].
Defined.

(** X12 on the output of section 8. *)
Lemma version_found_after_plain_text_witness :
  noDigits "zksolc version " = true
  /\ regexMatch "zksolc version 1.3.13" = Some "1.3.13".
Proof.
  split; [reflexivity|].
  exact (version_found_after_plain_text "zksolc version " "1.3.13" ""
           eq_refl version_1_3_13 eq_refl).
Defined.

(** X13 on the default repository. *)
Lemma download_source_and_target_witness :
  isURL "" = false
  /\ hd_error (List.filter isInstallStep
                 (trace (downloadCompiler (session "1.3.5") freshCache)))
     = Some (Download Compiler (binaryUrl "1.3.5") (binaryPath "1.3.5")).
Proof.
  split; [reflexivity|].
  exact (download_source_and_target "1.3.5" "" "/cache" 86400000 freshCache
           (manifest "1.3.13" "1.3.0") (freshCache_at_download "1.3.5")
           eq_refl).
Defined.

(** X14 on the world where 1.3.5 is published and works. *)
Lemma download_after_construction_witness :
  res (getDownloaderWithVersionValidated "1.3.5" "" "/cache"
         alreadyDownloaded) = Ok (session "1.3.5")
  /\ refetches
       (trace (downloadCompiler (session "1.3.5")
                 (final (getDownloaderWithVersionValidated "1.3.5" ""
                           "/cache" alreadyDownloaded)))) = O.
Proof.
  assert (Hok :
    res (getDownloaderWithVersionValidated "1.3.5" "" "/cache"
           alreadyDownloaded) = Ok (session "1.3.5"))
    by (vm_compute; reflexivity).
  destruct (download_after_construction "1.3.5" "" "/cache"
              alreadyDownloaded (session "1.3.5") eq_refl Hok) as (Hre & _).
  split; [exact Hok | exact Hre].
Defined.

End FurtherExamples.
